(** * Statement-of-Facts extraction backend: schema, pipeline and upload handler

    A shallow embedding of [project-backend/processor.py] and of the
    [/process] handler of [project-backend/main.py].

    - Python values that travel as JSON ([dict], [list], [str], numbers,
      [None]) are the inductive type [JSON]; a [dict] is an association
      list in insertion order, read with [dict_get].
    - The pydantic model classes are records with [option] fields.
    - Effects (environment lookup, the calls made to the LLM client, the
      file system) are threaded through a state-and-exception monad [Py].
    - What lives outside the repository (the LLM service, [json.loads],
      [json.dumps], [document_parser.extract_text_from_document]) is a
      [Variable] of the section that holds the code. *)

From Stdlib Require Import QArith ZArith.
From stdpp Require Import gmap strings list.

Open Scope string_scope.

(* ===================================================================== *)
(** ** JSON values *)
(* ===================================================================== *)

(** A Python [int] is an integer and a finite [float] the rational it
    denotes: the code only stores, compares and passes them on. *)
#[warnings="-register-all"]
Inductive JSON : Type :=
  | JNull
  | JBool (b : bool)
  | JInt (z : Z)
  | JFloat (q : Q)
  | JStr (s : string)
  | JArray (items : list JSON)
  | JObject (members : list (string * JSON)).

(** [d.get(k)] on a dict kept as an association list. *)
Fixpoint dict_get (k : string) (d : list (string * JSON)) : option JSON :=
  match d with
  | [] => None
  | (k', v) :: rest => if String.eqb k k' then Some v else dict_get k rest
  end.

(** [d[k] = v] on a dict: an existing key keeps its position, a new key
    goes last. *)
Fixpoint dict_set (k : string) (v : JSON) (d : list (string * JSON))
  : list (string * JSON) :=
  match d with
  | [] => [(k, v)]
  | (k', v') :: rest =>
      if String.eqb k k' then (k, v) :: rest else (k', v') :: dict_set k v rest
  end.

(** [del d[k]] for a key that may or may not be there. *)
Fixpoint dict_remove (k : string) (d : list (string * JSON))
  : list (string * JSON) :=
  match d with
  | [] => []
  | (k', v') :: rest =>
      if String.eqb k k' then dict_remove k rest else (k', v') :: dict_remove k rest
  end.

(* ===================================================================== *)
(** ** Data models (processor.py, lines 11-69) *)
(* ===================================================================== *)

Record PartyDetails := {
  shipowner_name : option string;
  charterer_name : option string;
  port_agent_name : option string;
  party_confidence : option Q
}.

Record CargoDetails := {
  operation_type : option string;
  cargo_type : option string;
  quantity : option Q;
  unit : option string;
  cargo_confidence : option Q
}.

Record Signatory := {
  role : option string;
  name : option string;
  date_signed : option string;
  signatory_confidence : option Q
}.

Record DocumentDetails := {
  document_source : option string;
  date_of_document : option string;
  port_name : option string;
  vessel_name : option string;
  voyage_number : option string;
  parties : option PartyDetails;
  cargo : option CargoDetails;
  details_confidence : option Q
}.

Record Event := {
  event_id : option Z;
  event_type : option string;
  start_date : option string;
  start_time : option string;
  end_date : option string;
  end_time : option string;
  duration_hours : option Q;
  weather_conditions : option string;
  remarks : option string;
  event_confidence : option Q
}.

Record LaytimeNotes := {
  free_time_periods_identified : option string;
  suspension_periods_identified : option string;
  remarks_on_interruptions_or_delays : option string;
  laytime_confidence : option Q
}.

Record SoFSchema := {
  document_details : DocumentDetails;
  events : list Event;
  laytime_notes : LaytimeNotes;
  approvals : option (list Signatory)
}.

(** The model classes as values, for [response_schema]. *)
Inductive ModelClass :=
  | PartyDetails_cls | CargoDetails_cls | Signatory_cls | DocumentDetails_cls
  | Event_cls | LaytimeNotes_cls | SoFSchema_cls.

(** The field names each class declares, in declaration order.  In every
    class the Python attribute is called [confidence]; the records above
    need distinct projection names. *)
Definition model_fields (c : ModelClass) : list string :=
  match c with
  | PartyDetails_cls =>
      ["shipowner_name"; "charterer_name"; "port_agent_name"; "confidence"]
  | CargoDetails_cls =>
      ["operation_type"; "cargo_type"; "quantity"; "unit"; "confidence"]
  | Signatory_cls => ["role"; "name"; "date_signed"; "confidence"]
  | DocumentDetails_cls =>
      ["document_source"; "date_of_document"; "port_name"; "vessel_name";
       "voyage_number"; "parties"; "cargo"; "confidence"]
  | Event_cls =>
      ["event_id"; "event_type"; "start_date"; "start_time"; "end_date";
       "end_time"; "duration_hours"; "weather_conditions"; "remarks";
       "confidence"]
  | LaytimeNotes_cls =>
      ["free_time_periods_identified"; "suspension_periods_identified";
       "remarks_on_interruptions_or_delays"; "confidence"]
  | SoFSchema_cls =>
      ["document_details"; "events"; "laytime_notes"; "approvals"]
  end.

(** The fields annotated [Optional[...]]: all of them except the three
    top-level ones typed [DocumentDetails], [List[Event]], [LaytimeNotes]. *)
Definition nullable_fields (c : ModelClass) : list string :=
  match c with
  | SoFSchema_cls => ["approvals"]
  | _ => model_fields c
  end.

(* ===================================================================== *)
(** ** Validation and dumping (pydantic [BaseModel])

    The source calls [model_dump], the pydantic 2 interface.  There a
    field is required unless its declaration gives a default value, and no
    declaration of the source does; [Optional[T]] only adds [None] to the
    values the field accepts.  Unknown keys are ignored.

    Scalars are accepted at the JSON type the annotation names ([float]
    also takes an [int], and [int] a [float] without fractional part).  pydantic's lax mode
    coerces a few mismatched scalars as well, numeric strings for one;
    that is left out, and nothing below depends on a mismatched scalar
    being refused. *)
(* ===================================================================== *)

Definition validate_str (j : JSON) : option string :=
  match j with JStr s => Some s | _ => None end.

Definition validate_float (j : JSON) : option Q :=
  match j with
  | JInt z => Some (inject_Z z)
  | JFloat q => Some q
  | _ => None
  end.

Definition validate_int (j : JSON) : option Z :=
  match j with
  | JInt z => Some z
  | JFloat q =>
      if Z.eqb (Z.rem (Qnum q) (Zpos (Qden q))) 0
      then Some (Z.quot (Qnum q) (Zpos (Qden q)))
      else None
  | _ => None
  end.

(** [Optional[T]]: [None] or a [T]. *)
Definition validate_optional {A} (v : JSON -> option A) (j : JSON)
  : option (option A) :=
  match j with
  | JNull => Some None
  | _ => match v j with Some a => Some (Some a) | None => None end
  end.

(** [List[T]]: a JSON array each of whose items is a [T]. *)
Definition validate_list {A} (v : JSON -> option A) (j : JSON)
  : option (list A) :=
  match j with
  | JArray items => mapM v items
  | _ => None
  end.

(** A declared field without default: the key has to be there. *)
Definition required {A} (d : list (string * JSON)) (k : string)
  (v : JSON -> option A) : option A :=
  match dict_get k d with
  | Some j => v j
  | None => None
  end.

Definition validate_PartyDetails (j : JSON) : option PartyDetails :=
  match j with
  | JObject d =>
      a ← required d "shipowner_name" (validate_optional validate_str);
      b ← required d "charterer_name" (validate_optional validate_str);
      c ← required d "port_agent_name" (validate_optional validate_str);
      e ← required d "confidence" (validate_optional validate_float);
      Some {| shipowner_name := a; charterer_name := b; port_agent_name := c;
              party_confidence := e |}
  | _ => None
  end.

Definition validate_CargoDetails (j : JSON) : option CargoDetails :=
  match j with
  | JObject d =>
      a ← required d "operation_type" (validate_optional validate_str);
      b ← required d "cargo_type" (validate_optional validate_str);
      c ← required d "quantity" (validate_optional validate_float);
      u ← required d "unit" (validate_optional validate_str);
      e ← required d "confidence" (validate_optional validate_float);
      Some {| operation_type := a; cargo_type := b; quantity := c; unit := u;
              cargo_confidence := e |}
  | _ => None
  end.

Definition validate_Signatory (j : JSON) : option Signatory :=
  match j with
  | JObject d =>
      a ← required d "role" (validate_optional validate_str);
      b ← required d "name" (validate_optional validate_str);
      c ← required d "date_signed" (validate_optional validate_str);
      e ← required d "confidence" (validate_optional validate_float);
      Some {| role := a; name := b; date_signed := c;
              signatory_confidence := e |}
  | _ => None
  end.

Definition validate_DocumentDetails (j : JSON) : option DocumentDetails :=
  match j with
  | JObject d =>
      a ← required d "document_source" (validate_optional validate_str);
      b ← required d "date_of_document" (validate_optional validate_str);
      c ← required d "port_name" (validate_optional validate_str);
      v ← required d "vessel_name" (validate_optional validate_str);
      n ← required d "voyage_number" (validate_optional validate_str);
      p ← required d "parties" (validate_optional validate_PartyDetails);
      g ← required d "cargo" (validate_optional validate_CargoDetails);
      e ← required d "confidence" (validate_optional validate_float);
      Some {| document_source := a; date_of_document := b; port_name := c;
              vessel_name := v; voyage_number := n; parties := p; cargo := g;
              details_confidence := e |}
  | _ => None
  end.

Definition validate_Event (j : JSON) : option Event :=
  match j with
  | JObject d =>
      i ← required d "event_id" (validate_optional validate_int);
      t ← required d "event_type" (validate_optional validate_str);
      sd ← required d "start_date" (validate_optional validate_str);
      st ← required d "start_time" (validate_optional validate_str);
      ed ← required d "end_date" (validate_optional validate_str);
      et ← required d "end_time" (validate_optional validate_str);
      h ← required d "duration_hours" (validate_optional validate_float);
      w ← required d "weather_conditions" (validate_optional validate_str);
      r ← required d "remarks" (validate_optional validate_str);
      e ← required d "confidence" (validate_optional validate_float);
      Some {| event_id := i; event_type := t; start_date := sd;
              start_time := st; end_date := ed; end_time := et;
              duration_hours := h; weather_conditions := w; remarks := r;
              event_confidence := e |}
  | _ => None
  end.

Definition validate_LaytimeNotes (j : JSON) : option LaytimeNotes :=
  match j with
  | JObject d =>
      a ← required d "free_time_periods_identified"
            (validate_optional validate_str);
      b ← required d "suspension_periods_identified"
            (validate_optional validate_str);
      c ← required d "remarks_on_interruptions_or_delays"
            (validate_optional validate_str);
      e ← required d "confidence" (validate_optional validate_float);
      Some {| free_time_periods_identified := a;
              suspension_periods_identified := b;
              remarks_on_interruptions_or_delays := c;
              laytime_confidence := e |}
  | _ => None
  end.

(** [SoFSchema.model_validate]: [None] stands for [ValidationError]. *)
Definition validate_SoFSchema (j : JSON) : option SoFSchema :=
  match j with
  | JObject d =>
      dd ← required d "document_details" validate_DocumentDetails;
      ev ← required d "events" (validate_list validate_Event);
      ln ← required d "laytime_notes" validate_LaytimeNotes;
      ap ← required d "approvals"
             (validate_optional (validate_list validate_Signatory));
      Some {| document_details := dd; events := ev; laytime_notes := ln;
              approvals := ap |}
  | _ => None
  end.

(** The validator of each class, up to the validated value. *)
Definition validates (c : ModelClass) (j : JSON) : bool :=
  match c with
  | PartyDetails_cls => bool_decide (is_Some (validate_PartyDetails j))
  | CargoDetails_cls => bool_decide (is_Some (validate_CargoDetails j))
  | Signatory_cls => bool_decide (is_Some (validate_Signatory j))
  | DocumentDetails_cls => bool_decide (is_Some (validate_DocumentDetails j))
  | Event_cls => bool_decide (is_Some (validate_Event j))
  | LaytimeNotes_cls => bool_decide (is_Some (validate_LaytimeNotes j))
  | SoFSchema_cls => bool_decide (is_Some (validate_SoFSchema j))
  end.

Arguments validate_optional : simpl never.
Arguments validate_list : simpl never.
Arguments validate_PartyDetails : simpl never.
Arguments validate_CargoDetails : simpl never.
Arguments validate_Signatory : simpl never.
Arguments validate_DocumentDetails : simpl never.
Arguments validate_Event : simpl never.
Arguments validate_LaytimeNotes : simpl never.

(** *** [model_dump] *)

Definition dump_opt {A} (f : A -> JSON) (o : option A) : JSON :=
  match o with Some a => f a | None => JNull end.

Definition dump_int (z : Z) : JSON := JInt z.

Definition dump_PartyDetails (p : PartyDetails) : JSON :=
  JObject [("shipowner_name", dump_opt JStr (shipowner_name p));
           ("charterer_name", dump_opt JStr (charterer_name p));
           ("port_agent_name", dump_opt JStr (port_agent_name p));
           ("confidence", dump_opt JFloat (party_confidence p))].

Definition dump_CargoDetails (c : CargoDetails) : JSON :=
  JObject [("operation_type", dump_opt JStr (operation_type c));
           ("cargo_type", dump_opt JStr (cargo_type c));
           ("quantity", dump_opt JFloat (quantity c));
           ("unit", dump_opt JStr (unit c));
           ("confidence", dump_opt JFloat (cargo_confidence c))].

Definition dump_Signatory (s : Signatory) : JSON :=
  JObject [("role", dump_opt JStr (role s));
           ("name", dump_opt JStr (name s));
           ("date_signed", dump_opt JStr (date_signed s));
           ("confidence", dump_opt JFloat (signatory_confidence s))].

Definition dump_DocumentDetails (d : DocumentDetails) : JSON :=
  JObject [("document_source", dump_opt JStr (document_source d));
           ("date_of_document", dump_opt JStr (date_of_document d));
           ("port_name", dump_opt JStr (port_name d));
           ("vessel_name", dump_opt JStr (vessel_name d));
           ("voyage_number", dump_opt JStr (voyage_number d));
           ("parties", dump_opt dump_PartyDetails (parties d));
           ("cargo", dump_opt dump_CargoDetails (cargo d));
           ("confidence", dump_opt JFloat (details_confidence d))].

Definition dump_Event (e : Event) : JSON :=
  JObject [("event_id", dump_opt dump_int (event_id e));
           ("event_type", dump_opt JStr (event_type e));
           ("start_date", dump_opt JStr (start_date e));
           ("start_time", dump_opt JStr (start_time e));
           ("end_date", dump_opt JStr (end_date e));
           ("end_time", dump_opt JStr (end_time e));
           ("duration_hours", dump_opt JFloat (duration_hours e));
           ("weather_conditions", dump_opt JStr (weather_conditions e));
           ("remarks", dump_opt JStr (remarks e));
           ("confidence", dump_opt JFloat (event_confidence e))].

Definition dump_LaytimeNotes (l : LaytimeNotes) : JSON :=
  JObject [("free_time_periods_identified",
              dump_opt JStr (free_time_periods_identified l));
           ("suspension_periods_identified",
              dump_opt JStr (suspension_periods_identified l));
           ("remarks_on_interruptions_or_delays",
              dump_opt JStr (remarks_on_interruptions_or_delays l));
           ("confidence", dump_opt JFloat (laytime_confidence l))].

(** [SoFSchema.model_dump()]. *)
Definition model_dump (m : SoFSchema) : JSON :=
  JObject [("document_details", dump_DocumentDetails (document_details m));
           ("events", JArray (map dump_Event (events m)));
           ("laytime_notes", dump_LaytimeNotes (laytime_notes m));
           ("approvals",
              dump_opt (fun l => JArray (map dump_Signatory l)) (approvals m))].

(* ===================================================================== *)
(** ** Exceptions, the world, and the [Py] monad *)
(* ===================================================================== *)

(** The exception classes the code raises or lets through.  Whatever the
    client library, the operating system or the document parser raises is
    an [ExternalError] carrying its class name. *)
Inductive ExnClass :=
  | ValueError
  | ValidationError
  | JSONDecodeError
  | TypeError
  | AttributeError
  | IndexError
  | HTTPException (status_code : Z)
  | ExternalError (cls : string).

(** An exception object: its class and [str(e)]. *)
Record exn := Exn { exn_class : ExnClass; exn_str : string }.

Inductive outcome (A : Type) :=
  | Returns (a : A)
  | Raises (e : exn).
Arguments Returns {A} a.
Arguments Raises {A} e.

(** The [config] dict handed to [generate_content]. *)
Record GenerateContentConfig := {
  response_mime_type : string;
  response_schema : ModelClass;
  temperature : Q
}.

(** [genai.Client(api_key=...)]. *)
Record Client := { client_api_key : option string }.

(** One [client.models.generate_content(model=, contents=, config=)]. *)
Record Request := {
  req_client : Client;
  req_model : string;
  req_contents : string;
  req_config : GenerateContentConfig
}.

(** What the code does with the outside service, in order. *)
Inductive Call :=
  | ClientCreated (api_key : option string)
  | GenerateContent (r : Request).

(** [response.parsed] as the [try] block of the code sees it: a model
    instance, [None], or an exception raised inside the block. *)
Inductive ParsedAttr :=
  | parsed_model (m : SoFSchema)
  | parsed_None
  | parsed_raises (e : exn).

Record Response := {
  parsed : ParsedAttr;
  text : option string
}.

(** An uploaded file: its name, the identity of its stream and its bytes. *)
Record UploadFile := {
  filename : string;
  stream : nat;
  body : string
}.

Inductive BackgroundTask :=
  | clear_output_file_task (file_path : string).

(** The state the code reads and writes.  [fs] maps the path of each
    regular file to its content; the directories do not change during a
    request and are given apart from the state. *)
Record World := {
  environ : gmap string string;
  calls : list Call;
  fs : gmap string string;
  closed_streams : gset nat;
  background_tasks : list BackgroundTask
}.

Definition Py (A : Type) : Type := World -> outcome A * World.

Definition ret {A} (a : A) : Py A := fun w => (Returns a, w).

Definition raise {A} (e : exn) : Py A := fun w => (Raises e, w).

Definition bind {A B} (c : Py A) (k : A -> Py B) : Py B :=
  fun w =>
    match c w with
    | (Returns a, w') => k a w'
    | (Raises e, w') => (Raises e, w')
    end.

(** [try: body / except <classes accepted by handles>: handler]. *)
Definition try_except {A} (body : Py A) (handles : exn -> bool)
  (handler : exn -> Py A) : Py A :=
  fun w =>
    match body w with
    | (Returns a, w') => (Returns a, w')
    | (Raises e, w') => if handles e then handler e w' else (Raises e, w')
    end.

(** [try: body / finally: cleanup]: the cleanup runs on every way out of
    the body; an exception of the cleanup itself replaces the outcome. *)
Definition try_finally {A} (body : Py A) (cleanup : Py ()) : Py A :=
  fun w =>
    match body w with
    | (r, w') =>
        match cleanup w' with
        | (Returns _, w'') => (r, w'')
        | (Raises e, w'') => (Raises e, w'')
        end
    end.

Declare Scope py_scope.
Delimit Scope py_scope with py.
Notation "x <- c ;; k" := (bind c (fun x => k))
  (at level 100, c at next level, right associativity) : py_scope.
Notation "c ;;; k" := (bind c (fun _ => k))
  (at level 100, right associativity) : py_scope.
Open Scope py_scope.

Definition set_calls (l : list Call) (w : World) : World :=
  {| environ := environ w; calls := l; fs := fs w;
     closed_streams := closed_streams w;
     background_tasks := background_tasks w |}.

Definition set_fs (m : gmap string string) (w : World) : World :=
  {| environ := environ w; calls := calls w; fs := m;
     closed_streams := closed_streams w;
     background_tasks := background_tasks w |}.

Definition set_closed_streams (s : gset nat) (w : World) : World :=
  {| environ := environ w; calls := calls w; fs := fs w;
     closed_streams := s;
     background_tasks := background_tasks w |}.

Definition set_background_tasks (l : list BackgroundTask) (w : World) : World :=
  {| environ := environ w; calls := calls w; fs := fs w;
     closed_streams := closed_streams w;
     background_tasks := l |}.

(** [os.getenv(k)]. *)
Definition os_getenv (k : string) : Py (option string) :=
  fun w => (Returns (environ w !! k), w).

(** [not v] for a value that is [None] or a string. *)
Definition py_not (v : option string) : bool :=
  match v with
  | None => true
  | Some s => String.eqb s ""
  end.

Definition genai_Client (api_key : option string) : Py Client :=
  fun w => (Returns {| client_api_key := api_key |},
            set_calls (calls w ++ [ClientCreated api_key]) w).

(** [isinstance(e, ValidationError)]. *)
Definition is_ValidationError (e : exn) : bool :=
  match exn_class e with ValidationError => true | _ => false end.

(** [except Exception]: every class of [ExnClass] derives from it. *)
Definition is_Exception (e : exn) : bool := true.

(** [l[i]] on a Python list. *)
Definition list_getitem {A} (l : list A) (i : nat) : Py A :=
  match l !! i with
  | Some a => ret a
  | None => raise (Exn IndexError "list index out of range")
  end.

(** The name Python gives the type of a value, as its error messages show
    it. *)
Definition type_name (j : JSON) : string :=
  match j with
  | JNull => "NoneType"
  | JBool _ => "bool"
  | JInt _ => "int"
  | JFloat _ => "float"
  | JStr _ => "str"
  | JArray _ => "list"
  | JObject _ => "dict"
  end.

(** [o[k] = v]: only a dict takes a string key. *)
Definition setitem (o : JSON) (k : string) (v : JSON) : Py JSON :=
  match o with
  | JObject d => ret (JObject (dict_set k v d))
  | JArray _ =>
      raise (Exn TypeError "list indices must be integers or slices, not str")
  | _ =>
      raise (Exn TypeError
               ("'" +:+ type_name o
                +:+ "' object does not support item assignment"))
  end.

(** [os.path.join(a, b)] on POSIX. *)
Definition os_path_join (a b : string) : string :=
  if String.prefix "/" b then b
  else if String.eqb a "" then b
  else if String.eqb (String.substring (String.length a - 1) 1 a) "/"
       then a +:+ b
       else a +:+ "/" +:+ b.

(** The instruction text of [_run_extraction] (lines 86-102), verbatim. *)
Definition extraction_prompt : string :=
  "
    You are given a Statement of Facts (SOF) document.
    Extract its details into the provided schema (SoFSchema).

    Guidelines:
     If information is clearly present in the document, do not leave fields blank.

     For every recorded event, ensure both start_time and end_time are populated. If an event represents a single point in time, use that same timestamp for both the start and end.

     If distinct start and end times are given, calculate the duration_hours.

     Include all relevant notes on weather, delays, tug usage, approvals, and laytime.

     Only leave a field as null if the data is truly missing from the document.

     Add a confidence score (from 0.0 to 1.0) for each extracted value.
    ".

(** The fixed parts of the f-string of [_refine_extraction] (lines
    130-167), verbatim, cut at its three interpolations. *)
Definition refine_prompt_head : string :=
  "
**Role & Goal:**
You are an expert data adjudicator specializing in maritime Statement of Facts (SOF) documents. Your task is to act as the final authority, producing a single, definitive, and highly accurate JSON record by critically analyzing the provided information.

**Inputs:**
1.  **The Document Text:** The original, unaltered source of truth.
2.  **Extraction 1:** A first attempt to structure the data.
3.  **Extraction 2:** A second, independent attempt.

**Core Logic & Rules:**
1.  **The Source is Final:** The Document Text is the absolute ground truth. Every field in your final output must be directly verifiable from this text.
2.  **Resolve Conflicts:** When the extractions disagree, you must re-examine the Document Text to determine the correct value. Do not guess or choose randomly.
3.  **Merge for Completeness:** Create the most complete record possible. If one extraction captured a detail (e.g., a remark or event) that the other missed, include it in your final output, but only after confirming it exists in the source text.
4.  **Determine Final Confidence:** Your confidence score for each field should reflect the evidence.
    - If both extractions agree and are confirmed by the text, confidence should be high (e.g., 0.95-1.0).
    - If you resolved a conflict or found a value only one extraction caught, your confidence should be slightly lower but still high if the text is clear (e.g., 0.85-0.9).
    - If the text itself is ambiguous, reflect that in the score (e.g., 0.7-0.8).

**Output Requirements:**
- **Strict Schema:** The output MUST be a single, valid JSON object that strictly follows the SoFSchema.
- **No Fabrication:** Do not invent, hallucinate, or infer data that is not explicitly present in the Document Text. If information is absent, the value MUST be `null`.

Begin your analysis. Compare the two extractions against the source text and generate the final, consolidated JSON object.

--- DOCUMENT TEXT ---
".

Definition refine_prompt_after_text : string :=
  "
--- END DOCUMENT ---

--- EXTRACTION 1 (Initial Pass) ---
".

Definition refine_prompt_between : string :=
  "
--- END EXTRACTION 1 ---

--- EXTRACTION 2 (Second Pass) ---
".

Definition refine_prompt_tail : string :=
  "
--- END EXTRACTION 2 ---

**Final Consolidated JSON:**
".

Definition missing_key_error : exn :=
  Exn ValueError "Missing GOOGLE_API_KEY environment variable.".

Definition uploads_dir : string := "uploads".

(** What [os.remove] raises for a directory, and for a path that is
    nothing. *)
Definition is_a_directory_error (p : string) : exn :=
  Exn (ExternalError "IsADirectoryError")
    ("[Errno 21] Is a directory: '" +:+ p +:+ "'").

Definition file_not_found_error (p : string) : exn :=
  Exn (ExternalError "FileNotFoundError")
    ("[Errno 2] No such file or directory: '" +:+ p +:+ "'").

(* ===================================================================== *)
(** ** Properties the specification asks of a record *)
(* ===================================================================== *)

Definition opt_list {A} (o : option A) : list A :=
  match o with Some a => [a] | None => [] end.

(** Every confidence value a record holds. *)
Definition confidences (m : SoFSchema) : list Q :=
  let dd := document_details m in
  (opt_list (details_confidence dd)
   ++ opt_list (parties dd ≫= party_confidence)
   ++ opt_list (cargo dd ≫= cargo_confidence)
   ++ omap event_confidence (events m)
   ++ opt_list (laytime_confidence (laytime_notes m))
   ++ omap signatory_confidence (default [] (approvals m)))%list.

Definition in_unit_interval (q : Q) : bool :=
  Qle_bool 0 q && Qle_bool q 1.

(** [start_time] and [end_time] are both there or both missing. *)
Definition both_or_neither (e : Event) : bool :=
  match start_time e, end_time e with
  | Some _, Some _ | None, None => true
  | _, _ => false
  end.

(* ===================================================================== *)
(** ** Sample data and sample surroundings *)
(* ===================================================================== *)

Definition blank_details : DocumentDetails :=
  {| document_source := None; date_of_document := None; port_name := None;
     vessel_name := None; voyage_number := None; parties := None;
     cargo := None; details_confidence := None |}.

Definition blank_notes : LaytimeNotes :=
  {| free_time_periods_identified := None;
     suspension_periods_identified := None;
     remarks_on_interruptions_or_delays := None;
     laytime_confidence := None |}.

Definition blank_event : Event :=
  {| event_id := None; event_type := None; start_date := None;
     start_time := None; end_date := None; end_time := None;
     duration_hours := None; weather_conditions := None; remarks := None;
     event_confidence := None |}.

(** A record without events, every nullable field [None]. *)
Definition blank_record : SoFSchema :=
  {| document_details := blank_details; events := [];
     laytime_notes := blank_notes; approvals := None |}.

Definition record_of_event (e : Event) : SoFSchema :=
  {| document_details := blank_details; events := [e];
     laytime_notes := blank_notes; approvals := None |}.

(** An event that carries the confidence value [q] and nothing else. *)
Definition event_with_confidence (q : Q) : Event :=
  {| event_id := Some 1%Z; event_type := Some "Loading"; start_date := None;
     start_time := None; end_date := None; end_time := None;
     duration_hours := None; weather_conditions := None; remarks := None;
     event_confidence := Some q |}.

(** An event that starts at 08:00 and has no end. *)
Definition open_ended_event : Event :=
  {| event_id := Some 1%Z; event_type := Some "Commenced loading";
     start_date := Some "14 Mar"; start_time := Some "08:00";
     end_date := None; end_time := None;
     duration_hours := None; weather_conditions := None; remarks := None;
     event_confidence := Some (95 # 100) |}.

(** The JSON of [blank_record] as a service would send it. *)
Definition blank_payload : list (string * JSON) :=
  [("document_details",
      JObject [("document_source", JNull); ("date_of_document", JNull);
               ("port_name", JNull); ("vessel_name", JNull);
               ("voyage_number", JNull); ("parties", JNull);
               ("cargo", JNull); ("confidence", JNull)]);
   ("events", JArray []);
   ("laytime_notes",
      JObject [("free_time_periods_identified", JNull);
               ("suspension_periods_identified", JNull);
               ("remarks_on_interruptions_or_delays", JNull);
               ("confidence", JNull)]);
   ("approvals", JNull)].

(** [blank_payload] with the key [vessel_name] left out of
    [document_details]. *)
Definition payload_without_vessel_name : list (string * JSON) :=
  [("document_details",
      JObject [("document_source", JNull); ("date_of_document", JNull);
               ("port_name", JNull);
               ("voyage_number", JNull); ("parties", JNull);
               ("cargo", JNull); ("confidence", JNull)]);
   ("events", JArray []);
   ("laytime_notes",
      JObject [("free_time_periods_identified", JNull);
               ("suspension_periods_identified", JNull);
               ("remarks_on_interruptions_or_delays", JNull);
               ("confidence", JNull)]);
   ("approvals", JNull)].

(** A decoder for the few texts the examples use; on those it answers as
    [json.loads] does. *)
Definition sample_loads (s : string) : JSON + string :=
  if String.eqb s "{}" then inl (JObject [])
  else if String.eqb s "[]" then inl (JArray [])
  else if String.eqb s "null" then inl JNull
  else inr "Expecting value: line 1 column 1 (char 0)".

(** An encoder for the few values the examples pass; on those it answers
    as [json.dumps] does. *)
Definition sample_dumps (ensure_ascii : bool) (j : JSON) : string :=
  match j with
  | JObject [] => "{}"
  | JArray [] => "[]"
  | JNull => "null"
  | JBool true => "true"
  | JBool false => "false"
  | _ => "{...}"
  end.

(** A service that gives the same response to every request. *)
Definition constant_service (r : Response) : list Call -> Request -> outcome Response :=
  fun _ _ => Returns r.

(** The response whose structured part is the model [m]. *)
Definition structured_response (m : SoFSchema) : Response :=
  {| parsed := parsed_model m; text := None |}.

(** A response whose structured part fails validation on access and whose
    raw text is [s]. *)
Definition invalid_response (s : string) : Response :=
  {| parsed := parsed_raises (Exn ValidationError "validation error for SoFSchema");
     text := Some s |}.

(** A response without structured part ([parsed] is [None]). *)
Definition unparsed_response (s : string) : Response :=
  {| parsed := parsed_None; text := Some s |}.

(** A parser for plain-text files: the text is the file's content. *)
Definition sample_extract_text (p : string) (files : gmap string string)
  : outcome string :=
  match files !! p with
  | Some content => Returns content
  | None => Raises (Exn (ExternalError "FileNotFoundError")
                      "No such file or directory")
  end.

(** Every path can be opened for writing. *)
Definition no_open_error (p : string) : option exn := None.

(** No path is a directory. *)
Definition no_directories (p : string) : bool := false.




Definition world_with_key (key : string) : World :=
  {| environ := {["GOOGLE_API_KEY" := key]}; calls := []; fs := ∅;
     closed_streams := ∅; background_tasks := [] |}.

Definition world_without_key : World :=
  {| environ := ∅; calls := []; fs := ∅;
     closed_streams := ∅; background_tasks := [] |}.

Definition sample_upload : UploadFile :=
  {| filename := "sof.txt"; stream := 0;
     body := "Commenced loading 08:00 14 Mar" |}.


(** A service that refuses every request with the error [e]. *)
Definition failing_service (e : exn) : list Call -> Request -> outcome Response :=
  fun _ _ => Raises e.

(** The number of requests sent so far. *)
Definition requests_so_far (history : list Call) : nat :=
  length (List.filter
            (fun c => match c with GenerateContent _ => true | _ => false end)
            history).

(** A service that answers its first [n] requests with [r] and refuses the
    later ones with [e]. *)
Definition service_failing_after (n : nat) (r : Response) (e : exn)
  : list Call -> Request -> outcome Response :=
  fun history _ =>
    if Nat.ltb (requests_so_far history) n then Returns r else Raises e.

Definition quota_error : exn :=
  Exn (ExternalError "ClientError") "429 RESOURCE_EXHAUSTED".

(** A parser that fails on every file. *)
Definition failing_extract_text (e : exn) (p : string) (files : gmap string string)
  : outcome string := Raises e.

Definition second_upload : UploadFile :=
  {| filename := "second.txt"; stream := 1;
     body := "Completed loading 14:00 14 Mar" |}.

(* ===================================================================== *)
(** ** The code *)
(* ===================================================================== *)

Section Backend.

(** The LLM service behind [generate_content]: what it answers to a
    request, given everything asked of it before. *)
Variable llm_service : list Call -> Request -> outcome Response.

(** [json.loads]: the decoded value, or the message of the
    [JSONDecodeError]. *)
Variable json_loads : string -> JSON + string.

(** [json.dumps(_, indent=2, ensure_ascii=_)]. *)
Variable json_dumps : bool -> JSON -> string.

(** [document_parser.extract_text_from_document], a module of the
    repository that reads the file at a path. *)
Variable extract_text_from_document :
  string -> gmap string string -> outcome string.

(** The paths [open(_, "w")] refuses, with the error it raises. *)
Variable open_error : string -> option exn.

(** The paths that are directories: [uploads], and with it the paths that
    [os.path.join] gives for the upload names [""], ["."] and [".."].  The
    handler creates and removes regular files only.  A path holds a regular
    file or is a directory, never both; for a world and an oracle that
    disagree, [os_remove] goes by the file.  Opening a directory for
    writing fails, so in real surroundings [open_error] refuses these
    paths; no statement below needs that. *)
Variable is_directory : string -> bool.

(** *** processor.py *)

Definition generate_content (client : Client) (model contents : string)
  (config : GenerateContentConfig) : Py Response :=
  fun w =>
    let r := {| req_client := client; req_model := model;
                req_contents := contents; req_config := config |} in
    (llm_service (calls w) r, set_calls (calls w ++ [GenerateContent r]) w).

(** [parsed: SoFSchema = response.parsed; return parsed.model_dump()]. *)
Definition parsed_model_dump (response : Response) : Py JSON :=
  match parsed response with
  | parsed_model m => ret (model_dump m)
  | parsed_None =>
      raise (Exn AttributeError
               "'NoneType' object has no attribute 'model_dump'")
  | parsed_raises e => raise e
  end.

(** [json.loads(response.text)]. *)
Definition loads_text (response : Response) : Py JSON :=
  match text response with
  | Some s =>
      match json_loads s with
      | inl j => ret j
      | inr msg => raise (Exn JSONDecodeError msg)
      end
  | None =>
      raise (Exn TypeError
               "the JSON object must be str, bytes or bytearray, not NoneType")
  end.

(** The [try]/[except ValidationError] that ends both helpers (lines
    110-114 and 175-179). *)
Definition parse_response (response : Response) : Py JSON :=
  try_except (parsed_model_dump response) is_ValidationError
    (fun _ => loads_text response).

Definition extraction_config (temp : Q) : GenerateContentConfig :=
  {| response_mime_type := "application/json";
     response_schema := SoFSchema_cls;
     temperature := temp |}.

Definition extraction_contents (sof_text : string) : string :=
  sof_text +:+ "

" +:+ extraction_prompt.

Definition _run_extraction (sof_text : string) (temp : Q) : Py JSON :=
  api_key <- os_getenv "GOOGLE_API_KEY";;
  if py_not api_key then raise missing_key_error
  else
    client <- genai_Client api_key;;
    let config := extraction_config temp in
    response <- generate_content client "gemini-2.5-pro"
                  (extraction_contents sof_text) config;;
    parse_response response.

Definition refine_prompt (sof_text dumped1 dumped2 : string) : string :=
  refine_prompt_head +:+ sof_text +:+ refine_prompt_after_text +:+ dumped1
  +:+ refine_prompt_between +:+ dumped2 +:+ refine_prompt_tail.

Definition _refine_extraction (sof_text : string) (extracted_jsons : list JSON)
  : Py JSON :=
  api_key <- os_getenv "GOOGLE_API_KEY";;
  if py_not api_key then raise missing_key_error
  else
    client <- genai_Client api_key;;
    let config := extraction_config 0 in
    first <- list_getitem extracted_jsons 0;;
    second <- list_getitem extracted_jsons 1;;
    let prompt :=
      refine_prompt sof_text (json_dumps true first) (json_dumps true second) in
    response <- generate_content client "gemini-2.5-pro" prompt config;;
    parse_response response.

(** The three [print] calls that open the function write to standard
    output only, which is not part of [World]. *)
Definition get_structured_data (sof_text : string) : Py JSON :=
  extraction1 <- _run_extraction sof_text 0;;
  extraction2 <- _run_extraction sof_text (3 # 10);;
  final <- _refine_extraction sof_text [extraction1; extraction2];;
  ret final.

(** *** main.py *)

(** [with open(file_path, "wb") as buffer:
       shutil.copyfileobj(file.file, buffer)].
    Opening creates or truncates the file; reading a closed stream raises. *)
Definition save_upload (file_path : string) (file : UploadFile) : Py () :=
  fun w =>
    match open_error file_path with
    | Some e => (Raises e, w)
    | None =>
        if bool_decide (stream file ∈ closed_streams w)
        then (Raises (Exn ValueError "I/O operation on closed file."),
              set_fs (<[file_path := ""]> (fs w)) w)
        else (Returns (), set_fs (<[file_path := body file]> (fs w)) w)
    end.

Definition read_document (file_path : string) : Py string :=
  fun w => (extract_text_from_document file_path (fs w), w).

(** [if not file.file.closed: file.file.close()]. *)
Definition close_upload (file : UploadFile) : Py () :=
  fun w =>
    if bool_decide (stream file ∈ closed_streams w) then (Returns (), w)
    else (Returns (),
          set_closed_streams ({[stream file]} ∪ closed_streams w) w).

(** [os.path.exists]: true of a regular file and of a directory. *)
Definition os_path_exists (p : string) : Py bool :=
  fun w =>
    (Returns (bool_decide (is_Some (fs w !! p)) || is_directory p), w).

(** [os.remove]: unlinks a regular file and refuses a directory. *)
Definition os_remove (p : string) : Py () :=
  fun w =>
    match fs w !! p with
    | Some _ => (Returns (), set_fs (delete p (fs w)) w)
    | None =>
        if is_directory p then (Raises (is_a_directory_error p), w)
        else (Raises (file_not_found_error p), w)
    end.

(** The [finally] block of the loop body (lines 108-112).  It raises when
    [os.remove] does: for a path that is a directory. *)
Definition cleanup_upload (file : UploadFile) (file_path : string) : Py () :=
  close_upload file;;;
  present <- os_path_exists file_path;;
  if present then os_remove file_path else ret ().

(** The [try] block of the loop body (lines 92-99). *)
Definition handle_upload (file : UploadFile) (file_path : string)
  (all_detailed_data : list JSON) : Py (list JSON) :=
  save_upload file_path file;;;
  raw_text <- read_document file_path;;
  detailed_ai_data <- get_structured_data raw_text;;
  detailed_ai_data <- setitem detailed_ai_data "fileName"
                        (JStr (filename file));;
  ret (all_detailed_data ++ [detailed_ai_data])%list.

(** One turn of [for file in files] (lines 90-112).  The handler's
    [print] and [traceback.print_exc()] write to the console only. *)
Definition process_file (file : UploadFile) (all_detailed_data : list JSON)
  : Py (list JSON) :=
  let file_path := os_path_join uploads_dir (filename file) in
  try_finally
    (try_except (handle_upload file file_path all_detailed_data)
       is_Exception
       (fun e =>
          raise (Exn (HTTPException 500)
                   ("Error while processing " +:+ filename file +:+ ": "
                    +:+ exn_str e))))
    (cleanup_upload file file_path).

Fixpoint process_files (files : list UploadFile) (all_detailed_data : list JSON)
  : Py (list JSON) :=
  match files with
  | [] => ret all_detailed_data
  | file :: rest =>
      all_detailed_data <- process_file file all_detailed_data;;
      process_files rest all_detailed_data
  end.

Definition write_text (p content : string) : Py () :=
  fun w =>
    match open_error p with
    | Some e => (Raises e, w)
    | None => (Returns (), set_fs (<[p := content]> (fs w)) w)
    end.

Definition add_task (t : BackgroundTask) : Py () :=
  fun w => (Returns (), set_background_tasks (background_tasks w ++ [t]) w).

(** [os.makedirs(uploads_dir, exist_ok=True)] touches directories only. *)
Definition process_uploaded_files (files : list UploadFile) : Py JSON :=
  all_detailed_data <- process_files files [];;
  write_text "output.json" (json_dumps false (JArray all_detailed_data));;;
  add_task (clear_output_file_task "output.json");;;
  ret (JArray all_detailed_data).

(** [clear_output_file]: a failure is printed, not raised. *)
Definition clear_output_file (file_path : string) : Py () :=
  try_except (write_text file_path "[]") is_Exception (fun _ => ret ()).


(** *** The requests the helpers send, for the statements below *)

Definition extraction_request (key : string) (sof_text : string) (temp : Q)
  : Request :=
  {| req_client := {| client_api_key := Some key |};
     req_model := "gemini-2.5-pro";
     req_contents := extraction_contents sof_text;
     req_config := extraction_config temp |}.

Definition refine_request (key : string) (sof_text : string)
  (candidate_a candidate_b : JSON) : Request :=
  {| req_client := {| client_api_key := Some key |};
     req_model := "gemini-2.5-pro";
     req_contents :=
       refine_prompt sof_text (json_dumps true candidate_a)
         (json_dumps true candidate_b);
     req_config := extraction_config 0 |}.

(** The [generate_content] requests among the calls, in order. *)
Definition llm_requests (l : list Call) : list Request :=
  omap (fun c => match c with GenerateContent r => Some r | _ => None end) l.

(** The world after a client was built with [key] and [r] was sent. *)
Definition after_request (key : string) (r : Request) (w : World) : World :=
  set_calls (calls w ++ [ClientCreated (Some key); GenerateContent r]) w.

(** The spec's three error kinds, as the classes the code raises for them:
    the [ValueError] of the credential guard, pydantic's
    [ValidationError], and for the service whatever the client raises or
    a [JSONDecodeError] on the raw text. *)
Definition is_defined_error_kind (e : exn) : bool :=
  match exn_class e with
  | ValueError | ValidationError | JSONDecodeError | ExternalError _ => true
  | _ => false
  end.

(** *** Background tasks, run once the response has gone out *)

Definition run_task (t : BackgroundTask) : Py () :=
  match t with
  | clear_output_file_task file_path => clear_output_file file_path
  end.

Fixpoint run_tasks (tasks : list BackgroundTask) : Py () :=
  match tasks with
  | [] => ret ()
  | t :: rest => run_task t;;; run_tasks rest
  end.

(** The tasks added during the request, in the order they were added. *)
Definition run_background_tasks : Py () :=
  fun w => run_tasks (background_tasks w) (set_background_tasks [] w).

(** The exception the handler raises for a failed upload. *)
Definition http_500 (file : UploadFile) (cause : exn) : exn :=
  Exn (HTTPException 500)
    ("Error while processing " +:+ filename file +:+ ": " +:+ exn_str cause).

(* ===================================================================== *)
(** ** Facts about dicts and validation *)
(* ===================================================================== *)

Lemma dict_get_set (k k' : string) (v : JSON) (d : list (string * JSON)) :
  dict_get k' (dict_set k v d) =
  if String.eqb k' k then Some v else dict_get k' d.
Proof.
  induction d as [|[k0 v0] d IH]; simpl.
  - destruct (String.eqb k' k); reflexivity.
  - destruct (String.eqb k k0) eqn:E; simpl.
    + apply String.eqb_eq in E. subst k0.
      destruct (String.eqb k' k); reflexivity.
    + destruct (String.eqb k' k0) eqn:E'.
      * apply String.eqb_eq in E'. subst k0.
        rewrite String.eqb_sym, E. reflexivity.
      * exact IH.
Qed.

Lemma required_set_null {A} (v : JSON -> option A) k d :
  required (dict_set k JNull d) k (validate_optional v) = Some None.
Proof.
  unfold required. rewrite dict_get_set, String.eqb_refl. reflexivity.
Qed.

Lemma required_set_other {A} (v : JSON -> option A) k k' x d :
  String.eqb k' k = false ->
  required (dict_set k x d) k' v = required d k' v.
Proof.
  intros E. unfold required. rewrite dict_get_set, E. reflexivity.
Qed.

Lemma required_missing {A} (v : JSON -> option A) k d :
  dict_get k d = None -> required d k v = None.
Proof. intros E. unfold required. rewrite E. reflexivity. Qed.

Lemma required_null_strict {A} (v : JSON -> option A) k d :
  v JNull = None -> dict_get k d = Some JNull -> required d k v = None.
Proof. intros Hv E. unfold required. rewrite E. exact Hv. Qed.

Lemma validate_optional_dump {A} (v : JSON -> option A) (dump : A -> JSON)
  (o : option A) :
  (forall a, v (dump a) = Some a) -> (forall a, dump a <> JNull) ->
  validate_optional v (dump_opt dump o) = Some o.
Proof.
  intros Hv Hd. destruct o as [a|]; [|reflexivity].
  unfold validate_optional, dump_opt. rewrite Hv.
  destruct (dump a) eqn:E; try reflexivity. destruct (Hd a E).
Qed.

Lemma validate_str_dump (o : option string) :
  validate_optional validate_str (dump_opt JStr o) = Some o.
Proof. destruct o; reflexivity. Qed.

Lemma validate_float_dump (o : option Q) :
  validate_optional validate_float (dump_opt JFloat o) = Some o.
Proof. destruct o; reflexivity. Qed.

Lemma validate_int_dump (o : option Z) :
  validate_optional validate_int (dump_opt dump_int o) = Some o.
Proof. destruct o; reflexivity. Qed.

Lemma validate_dump_PartyDetails (p : PartyDetails) :
  validate_PartyDetails (dump_PartyDetails p) = Some p.
Proof.
  destruct p. unfold validate_PartyDetails, dump_PartyDetails, required.
  simpl. rewrite !validate_str_dump, validate_float_dump. reflexivity.
Qed.

Lemma validate_dump_CargoDetails (c : CargoDetails) :
  validate_CargoDetails (dump_CargoDetails c) = Some c.
Proof.
  destruct c. unfold validate_CargoDetails, dump_CargoDetails, required.
  simpl. rewrite !validate_str_dump, !validate_float_dump. reflexivity.
Qed.

Lemma validate_dump_Signatory (s : Signatory) :
  validate_Signatory (dump_Signatory s) = Some s.
Proof.
  destruct s. unfold validate_Signatory, dump_Signatory, required.
  simpl. rewrite !validate_str_dump, validate_float_dump. reflexivity.
Qed.

Lemma validate_dump_Event (e : Event) :
  validate_Event (dump_Event e) = Some e.
Proof.
  destruct e. unfold validate_Event, dump_Event, required. simpl.
  rewrite validate_int_dump, !validate_str_dump, !validate_float_dump.
  reflexivity.
Qed.

Lemma validate_dump_LaytimeNotes (l : LaytimeNotes) :
  validate_LaytimeNotes (dump_LaytimeNotes l) = Some l.
Proof.
  destruct l. unfold validate_LaytimeNotes, dump_LaytimeNotes, required.
  simpl. rewrite !validate_str_dump, validate_float_dump. reflexivity.
Qed.

Lemma validate_dump_DocumentDetails (d : DocumentDetails) :
  validate_DocumentDetails (dump_DocumentDetails d) = Some d.
Proof.
  destruct d as [a b c v n p g e].
  unfold validate_DocumentDetails, dump_DocumentDetails, required. simpl.
  rewrite !validate_str_dump, validate_float_dump. simpl.
  rewrite (validate_optional_dump _ _ p validate_dump_PartyDetails)
    by discriminate.
  rewrite (validate_optional_dump _ _ g validate_dump_CargoDetails)
    by discriminate.
  reflexivity.
Qed.

Lemma mapM_validate_dump {A} (v : JSON -> option A) (dump : A -> JSON)
  (l : list A) :
  (forall a, v (dump a) = Some a) -> mapM v (map dump l) = Some l.
Proof.
  intros H. induction l as [|a l IH]; simpl; [reflexivity|].
  rewrite H. simpl. rewrite IH. reflexivity.
Qed.

Lemma validate_list_dump {A} (v : JSON -> option A) (dump : A -> JSON)
  (l : list A) :
  (forall a, v (dump a) = Some a) ->
  validate_list v (JArray (map dump l)) = Some l.
Proof. intros H. unfold validate_list. by apply mapM_validate_dump. Qed.

(** A dumped record validates, and validates to itself. *)
Lemma validate_model_dump (m : SoFSchema) :
  validate_SoFSchema (model_dump m) = Some m.
Proof.
  destruct m as [dd ev ln ap].
  unfold validate_SoFSchema, model_dump, required. simpl.
  rewrite validate_dump_DocumentDetails. simpl.
  rewrite (validate_list_dump _ _ ev validate_dump_Event). simpl.
  rewrite validate_dump_LaytimeNotes. simpl.
  destruct ap as [l|]; [|reflexivity].
  unfold validate_optional, dump_opt.
  rewrite (validate_list_dump _ _ l validate_dump_Signatory). reflexivity.
Qed.

Lemma model_dump_no_fileName (m : SoFSchema) :
  exists d, model_dump m = JObject d /\ dict_get "fileName" d = None.
Proof. eexists. split; reflexivity. Qed.

(** Reading a validator's chain of fields from the front. *)
Ltac first_field H :=
  match type of H with
  | is_Some (mbind _ ?x) =>
      destruct x eqn:?; simpl in H; [| by apply is_Some_None in H]
  end.

Ltac fails_at_missing :=
  simpl; try reflexivity;
  repeat match goal with
    | |- mbind _ (required ?d ?k ?v) = None =>
        destruct (required d k v); simpl; [| reflexivity]; try reflexivity
    end.

Ltac split_membership H :=
  repeat (apply elem_of_cons in H as [-> | H]); try (by apply elem_of_nil in H).

Lemma validates_is_Some (c : ModelClass) (j : JSON) :
  validates c j = true <->
  match c with
  | PartyDetails_cls => is_Some (validate_PartyDetails j)
  | CargoDetails_cls => is_Some (validate_CargoDetails j)
  | Signatory_cls => is_Some (validate_Signatory j)
  | DocumentDetails_cls => is_Some (validate_DocumentDetails j)
  | Event_cls => is_Some (validate_Event j)
  | LaytimeNotes_cls => is_Some (validate_LaytimeNotes j)
  | SoFSchema_cls => is_Some (validate_SoFSchema j)
  end.
Proof. destruct c; unfold validates; apply bool_decide_eq_true. Qed.

(** A declared key that is absent makes validation fail. *)
Lemma missing_field_rejected (c : ModelClass) (k : string)
  (d : list (string * JSON)) :
  k ∈ model_fields c -> dict_get k d = None -> validates c (JObject d) = false.
Proof.
  intros Hk Hd. apply not_true_is_false. rewrite validates_is_Some.
  cut (match c with
       | PartyDetails_cls => validate_PartyDetails (JObject d) = None
       | CargoDetails_cls => validate_CargoDetails (JObject d) = None
       | Signatory_cls => validate_Signatory (JObject d) = None
       | DocumentDetails_cls => validate_DocumentDetails (JObject d) = None
       | Event_cls => validate_Event (JObject d) = None
       | LaytimeNotes_cls => validate_LaytimeNotes (JObject d) = None
       | SoFSchema_cls => validate_SoFSchema (JObject d) = None
       end).
  { destruct c; intros ->; apply is_Some_None. }
  destruct c; simpl in Hk; split_membership Hk;
    unfold validate_PartyDetails, validate_CargoDetails, validate_Signatory,
      validate_DocumentDetails, validate_Event, validate_LaytimeNotes,
      validate_SoFSchema;
    rewrite (required_missing _ _ _ Hd); fails_at_missing.
Qed.

(** Setting a nullable field to [null] keeps a payload valid. *)
Lemma null_field_accepted (c : ModelClass) (k : string)
  (d : list (string * JSON)) :
  k ∈ nullable_fields c -> validates c (JObject d) = true ->
  validates c (JObject (dict_set k JNull d)) = true.
Proof.
  rewrite !validates_is_Some. intros Hk Hv.
  destruct c; simpl in Hk; split_membership Hk;
    unfold validate_PartyDetails, validate_CargoDetails, validate_Signatory,
      validate_DocumentDetails, validate_Event, validate_LaytimeNotes,
      validate_SoFSchema in *;
    rewrite required_set_null, !required_set_other by reflexivity;
    repeat first_field Hv; simpl; eauto.
Qed.

(** The three top-level fields that are not [Optional] refuse [null]. *)
Lemma null_rejected_when_not_nullable (c : ModelClass) (k : string)
  (d : list (string * JSON)) :
  k ∈ model_fields c -> k ∉ nullable_fields c ->
  dict_get k d = Some JNull -> validates c (JObject d) = false.
Proof.
  intros Hk Hn Hd. apply not_true_is_false. rewrite validates_is_Some.
  destruct c; try (by destruct (Hn Hk)).
  cut (validate_SoFSchema (JObject d) = None).
  { intros ->. apply is_Some_None. }
  simpl in Hk, Hn. split_membership Hk; unfold validate_SoFSchema.
  - rewrite (required_null_strict validate_DocumentDetails _ _ eq_refl Hd).
    fails_at_missing.
  - rewrite (required_null_strict (validate_list validate_Event) _ _ eq_refl Hd).
    fails_at_missing.
  - rewrite (required_null_strict validate_LaytimeNotes _ _ eq_refl Hd).
    fails_at_missing.
  - destruct Hn. set_solver.
Qed.

(* ===================================================================== *)
(** ** Facts about the helpers of processor.py *)
(* ===================================================================== *)

Lemma string_app_assoc (a b c : string) : (a +:+ b) +:+ c = a +:+ b +:+ c.
Proof.
  induction a as [|x a IH]; [reflexivity|].
  change (String x ((a +:+ b) +:+ c) = String x (a +:+ b +:+ c)).
  by rewrite IH.
Qed.

Lemma py_not_false (key : string) : key <> "" -> py_not (Some key) = false.
Proof. intros H. simpl. by apply String.eqb_neq. Qed.

Lemma set_calls_set_calls l l' w : set_calls l (set_calls l' w) = set_calls l w.
Proof. reflexivity. Qed.

Lemma set_calls_same w : set_calls (calls w) w = w.
Proof. by destruct w. Qed.

(** Reading the response never touches the world. *)
Lemma parse_response_frame (response : Response) (w : World) :
  exists r, parse_response response w = (r, w).
Proof.
  unfold parse_response, try_except, parsed_model_dump, loads_text.
  destruct (parsed response) as [m| |e]; simpl; eauto.
  destruct (is_ValidationError e); eauto.
  destruct (text response) as [s|]; simpl; eauto.
  destruct (json_loads s); simpl; eauto.
Qed.

Lemma parse_response_model (response : Response) (m : SoFSchema) (w : World) :
  parsed response = parsed_model m ->
  parse_response response w = (Returns (model_dump m), w).
Proof.
  intros E. unfold parse_response, try_except, parsed_model_dump.
  rewrite E. reflexivity.
Qed.

(** Without a usable key the helpers stop at the guard. *)
Lemma run_extraction_no_key sof_text temp w :
  py_not (environ w !! "GOOGLE_API_KEY") = true ->
  _run_extraction sof_text temp w = (Raises missing_key_error, w).
Proof.
  intros H. unfold _run_extraction, bind, os_getenv. rewrite H. reflexivity.
Qed.

Lemma refine_extraction_no_key sof_text jsons w :
  py_not (environ w !! "GOOGLE_API_KEY") = true ->
  _refine_extraction sof_text jsons w = (Raises missing_key_error, w).
Proof.
  intros H. unfold _refine_extraction, bind, os_getenv. rewrite H. reflexivity.
Qed.

(** With a key, [_run_extraction] builds a client, sends one request and
    reads the answer. *)
Lemma run_extraction_with_key sof_text temp key w :
  environ w !! "GOOGLE_API_KEY" = Some key -> key <> "" ->
  _run_extraction sof_text temp w =
  let r := extraction_request key sof_text temp in
  match llm_service (calls w ++ [ClientCreated (Some key)]) r with
  | Returns response => parse_response response (after_request key r w)
  | Raises e => (Raises e, after_request key r w)
  end.
Proof.
  intros E K. unfold _run_extraction, bind, os_getenv. rewrite E.
  rewrite (py_not_false _ K). unfold genai_Client, generate_content. simpl.
  unfold after_request, extraction_request.
  rewrite <- (app_assoc (calls w)). simpl.
  destruct (llm_service _ _); reflexivity.
Qed.

Lemma refine_extraction_with_key sof_text a b key w :
  environ w !! "GOOGLE_API_KEY" = Some key -> key <> "" ->
  _refine_extraction sof_text [a; b] w =
  let r := refine_request key sof_text a b in
  match llm_service (calls w ++ [ClientCreated (Some key)]) r with
  | Returns response => parse_response response (after_request key r w)
  | Raises e => (Raises e, after_request key r w)
  end.
Proof.
  intros E K. unfold _refine_extraction, bind, os_getenv. rewrite E.
  rewrite (py_not_false _ K). unfold genai_Client, generate_content. simpl.
  unfold after_request, refine_request.
  rewrite <- (app_assoc (calls w)). simpl.
  destruct (llm_service _ _); reflexivity.
Qed.

(** Whatever happens, a helper only adds to [calls]. *)
Lemma run_extraction_frame sof_text temp w :
  exists r l, _run_extraction sof_text temp w = (r, set_calls l w).
Proof.
  destruct (py_not (environ w !! "GOOGLE_API_KEY")) eqn:G.
  - rewrite run_extraction_no_key by done.
    exists (Raises missing_key_error), (calls w). by rewrite set_calls_same.
  - destruct (environ w !! "GOOGLE_API_KEY") as [key|] eqn:E; [|done].
    assert (key <> "") as K by (by apply String.eqb_neq).
    rewrite (run_extraction_with_key _ _ key) by done. simpl.
    destruct (llm_service _ _) as [response|e]; [|by eauto].
    destruct (parse_response_frame response
                (after_request key (extraction_request key sof_text temp) w))
      as [r ->]. by eauto.
Qed.

Lemma refine_extraction_frame sof_text jsons w :
  exists r l, _refine_extraction sof_text jsons w = (r, set_calls l w).
Proof.
  destruct (py_not (environ w !! "GOOGLE_API_KEY")) eqn:G.
  - rewrite refine_extraction_no_key by done.
    exists (Raises missing_key_error), (calls w). by rewrite set_calls_same.
  - unfold _refine_extraction, bind, os_getenv. rewrite G.
    unfold genai_Client, list_getitem.
    destruct (jsons !! 0%nat) as [a|]; [|by eexists _, _].
    destruct (jsons !! 1%nat) as [b|]; [|by eexists _, _].
    unfold generate_content, ret. simpl.
    destruct (llm_service _ _) as [response|e]; [|by eexists _, _].
    match goal with |- context [parse_response response ?w0] =>
      destruct (parse_response_frame response w0) as [r ->] end.
    by eexists _, _.
Qed.

Lemma get_structured_data_frame sof_text w :
  exists r l, get_structured_data sof_text w = (r, set_calls l w).
Proof.
  unfold get_structured_data, bind.
  destruct (run_extraction_frame sof_text 0 w) as (r1 & l1 & ->).
  destruct r1 as [a|e]; [|by eauto].
  destruct (run_extraction_frame sof_text (3 # 10) (set_calls l1 w))
    as (r2 & l2 & ->).
  destruct r2 as [b|e]; [|by eauto].
  destruct (refine_extraction_frame sof_text [a; b]
              (set_calls l2 (set_calls l1 w))) as (r3 & l3 & ->).
  destruct r3; by eauto.
Qed.

(** When the service answers every request with the model [m], the
    pipeline returns the dump of [m]. *)
Lemma pipeline_returns_model (m : SoFSchema) (sof_text key : string) (w : World) :
  environ w !! "GOOGLE_API_KEY" = Some key -> key <> "" ->
  (forall history r, llm_service history r = Returns (structured_response m)) ->
  exists w', get_structured_data sof_text w = (Returns (model_dump m), w').
Proof.
  intros E K S. unfold get_structured_data, bind.
  rewrite (run_extraction_with_key _ _ key) by done. simpl. rewrite S.
  rewrite (parse_response_model _ m) by done.
  rewrite (run_extraction_with_key _ _ key) by done. simpl. rewrite S.
  rewrite (parse_response_model _ m) by done.
  rewrite (refine_extraction_with_key _ _ _ key) by done. simpl. rewrite S.
  rewrite (parse_response_model _ m) by done.
  eauto.
Qed.

(* ===================================================================== *)
(** ** The credential guard *)
(* ===================================================================== *)

(** C4. With no [GOOGLE_API_KEY] in the environment, [_run_extraction]
    and [_refine_extraction] raise the missing-key [ValueError] and leave
    the world as it was: no client has been built and no request sent.
    [get_structured_data] stops at its first step with the same error and
    the same untouched world, so the second extraction and the refinement
    never run. *)
Theorem missing_credential_aborts (sof_text : string) (temp : Q)
  (extracted_jsons : list JSON) (w : World) :
  environ w !! "GOOGLE_API_KEY" = None ->
  _run_extraction sof_text temp w = (Raises missing_key_error, w) /\
  _refine_extraction sof_text extracted_jsons w = (Raises missing_key_error, w) /\
  get_structured_data sof_text w = (Raises missing_key_error, w).
Proof.
  intros E.
  assert (py_not (environ w !! "GOOGLE_API_KEY") = true) as G by by rewrite E.
  split; [by apply run_extraction_no_key|].
  split; [by apply refine_extraction_no_key|].
  unfold get_structured_data, bind.
  by rewrite run_extraction_no_key.
Qed.

(** C10. A [GOOGLE_API_KEY] set to the empty string is refused like a
    missing one: both helpers raise the missing-key [ValueError] with the
    world untouched, so no client is built with the empty string and no
    request is sent. *)
Theorem empty_credential_is_missing (sof_text : string) (temp : Q)
  (extracted_jsons : list JSON) (w : World) :
  environ w !! "GOOGLE_API_KEY" = Some "" ->
  _run_extraction sof_text temp w = (Raises missing_key_error, w) /\
  _refine_extraction sof_text extracted_jsons w = (Raises missing_key_error, w).
Proof.
  intros E.
  assert (py_not (environ w !! "GOOGLE_API_KEY") = true) as G by by rewrite E.
  split; [by apply run_extraction_no_key | by apply refine_extraction_no_key].
Qed.

(* ===================================================================== *)
(** ** The adjudication request *)
(* ===================================================================== *)

(** C5. With a key configured, [_refine_extraction] on the text and two
    candidates sends exactly one request, whatever the service answers:
    its temperature is 0, its response schema is [SoFSchema], and its
    contents hold the document text between the document markers, the
    first candidate under EXTRACTION 1 and the second under
    EXTRACTION 2. *)
Theorem refine_sends_one_request (sof_text key : string)
  (candidate_a candidate_b : JSON) (w : World) :
  environ w !! "GOOGLE_API_KEY" = Some key -> key <> "" ->
  exists result w' r,
    _refine_extraction sof_text [candidate_a; candidate_b] w = (result, w') /\
    llm_requests (calls w') = (llm_requests (calls w) ++ [r])%list /\
    temperature (req_config r) = 0%Q /\
    response_schema (req_config r) = SoFSchema_cls /\
    exists before after,
      req_contents r =
      before +:+ "--- DOCUMENT TEXT ---
" +:+ sof_text +:+ "
--- END DOCUMENT ---

--- EXTRACTION 1 (Initial Pass) ---
" +:+ json_dumps true candidate_a +:+ "
--- END EXTRACTION 1 ---

--- EXTRACTION 2 (Second Pass) ---
" +:+ json_dumps true candidate_b +:+ "
--- END EXTRACTION 2 ---
" +:+ after.
Proof.
  intros E K.
  set (r := refine_request key sof_text candidate_a candidate_b).
  assert (exists result,
             _refine_extraction sof_text [candidate_a; candidate_b] w
             = (result, after_request key r w)) as [result Hrun].
  { rewrite (refine_extraction_with_key _ _ _ key) by done. simpl. fold r.
    destruct (llm_service _ _) as [response|e]; [|by eauto].
    destruct (parse_response_frame response (after_request key r w))
      as [res ->]. by eauto. }
  exists result, (after_request key r w), r.
  split; [exact Hrun|].
  split.
  { unfold after_request, llm_requests. simpl.
    rewrite omap_app. reflexivity. }
  split; [reflexivity|]. split; [reflexivity|].
  exists (String.substring 0 (String.length refine_prompt_head - 22)
            refine_prompt_head).
  exists (String.substring 26 (String.length refine_prompt_tail - 26)
            refine_prompt_tail).
  unfold r, refine_request, refine_prompt. simpl req_contents.
  replace refine_prompt_head with
    (String.substring 0 (String.length refine_prompt_head - 22)
       refine_prompt_head +:+ "--- DOCUMENT TEXT ---
") at 1 by (vm_compute; reflexivity).
  replace refine_prompt_tail with
    ("
--- END EXTRACTION 2 ---
" +:+ String.substring 26 (String.length refine_prompt_tail - 26)
            refine_prompt_tail) at 1
    by (vm_compute; reflexivity).
  rewrite string_app_assoc. reflexivity.
Qed.

(* ===================================================================== *)
(** ** What the schema does not constrain *)
(* ===================================================================== *)

Ltac split_prompt_at sentence :=
  let n := eval vm_compute in
    (match String.index 0 sentence (extraction_contents "") with
     | Some n => n
     | None => 0%nat
     end) in
  exists (String.substring 0 n (extraction_contents "")),
         (String.substring (n + String.length sentence)
            (String.length extraction_prompt) (extraction_contents ""));
  vm_compute; reflexivity.

(** C7 (as the code has it). The confidence fields are [Optional[float]]
    without bounds: any rational [q] can sit in a record that validates
    against [SoFSchema], and when the service answers with such a record
    the pipeline returns it with [q] in place.  The interval 0.0 to 1.0 is
    asked of the model in the extraction prompt and nowhere checked. *)
Theorem confidence_range_not_checked (m : SoFSchema) (q : Q)
  (sof_text key : string) (w : World) :
  environ w !! "GOOGLE_API_KEY" = Some key -> key <> "" ->
  (forall history r, llm_service history r = Returns (structured_response m)) ->
  q ∈ confidences m ->
  (exists j w' m',
      get_structured_data sof_text w = (Returns j, w') /\
      validate_SoFSchema j = Some m' /\ q ∈ confidences m') /\
  (exists before after,
      extraction_contents sof_text =
      sof_text +:+ before
      +:+ "Add a confidence score (from 0.0 to 1.0) for each extracted value."
      +:+ after).
Proof.
  intros E K S Hq. split.
  - destruct (pipeline_returns_model m sof_text key w E K S) as [w' Hrun].
    exists (model_dump m), w', m.
    split; [exact Hrun|]. split; [apply validate_model_dump | exact Hq].
  - unfold extraction_contents.
    cut (exists before after,
            extraction_contents "" = before
            +:+ "Add a confidence score (from 0.0 to 1.0) for each extracted value."
            +:+ after).
    { intros (b & a & H). exists b, a. unfold extraction_contents in H.
      simpl in H. by rewrite <- H. }
    split_prompt_at
      "Add a confidence score (from 0.0 to 1.0) for each extracted value.".
Qed.

(** C8 (as the code has it). The schema does not relate [start_time],
    [end_time] and [duration_hours]: each is a nullable field of its own.
    Any event [e], whatever its three fields hold, can sit in a record that
    validates, and when the service answers with such a record the pipeline
    returns it with [e] in place.  Both rules are instructions to the model
    in the extraction prompt. *)
Theorem event_times_not_checked (m : SoFSchema) (e : Event)
  (sof_text key : string) (w : World) :
  environ w !! "GOOGLE_API_KEY" = Some key -> key <> "" ->
  (forall history r, llm_service history r = Returns (structured_response m)) ->
  e ∈ events m ->
  (exists j w' m',
      get_structured_data sof_text w = (Returns j, w') /\
      validate_SoFSchema j = Some m' /\ e ∈ events m') /\
  (exists before after,
      extraction_contents sof_text =
      sof_text +:+ before
      +:+ "For every recorded event, ensure both start_time and end_time are populated. If an event represents a single point in time, use that same timestamp for both the start and end."
      +:+ after) /\
  (exists before after,
      extraction_contents sof_text =
      sof_text +:+ before
      +:+ "If distinct start and end times are given, calculate the duration_hours."
      +:+ after).
Proof.
  intros E K S He. split; [|split].
  - destruct (pipeline_returns_model m sof_text key w E K S) as [w' Hrun].
    exists (model_dump m), w', m.
    split; [exact Hrun|]. split; [apply validate_model_dump | exact He].
  - cut (exists before after,
            extraction_contents "" = before
            +:+ "For every recorded event, ensure both start_time and end_time are populated. If an event represents a single point in time, use that same timestamp for both the start and end."
            +:+ after).
    { intros (b & a & H). exists b, a. unfold extraction_contents in *.
      simpl in H. by rewrite <- H. }
    split_prompt_at
      "For every recorded event, ensure both start_time and end_time are populated. If an event represents a single point in time, use that same timestamp for both the start and end.".
  - cut (exists before after,
            extraction_contents "" = before
            +:+ "If distinct start and end times are given, calculate the duration_hours."
            +:+ after).
    { intros (b & a & H). exists b, a. unfold extraction_contents in *.
      simpl in H. by rewrite <- H. }
    split_prompt_at
      "If distinct start and end times are given, calculate the duration_hours.".
Qed.

(* ===================================================================== *)
(** ** The pipeline and the upload handler *)
(* ===================================================================== *)

Lemma get_structured_data_returns sof_text w final w' :
  get_structured_data sof_text w = (Returns final, w') ->
  exists key a b w1 w2,
    (environ w !! "GOOGLE_API_KEY" = Some key /\ key <> "") /\
    _run_extraction sof_text 0 w = (Returns a, w1) /\
    _run_extraction sof_text (3 # 10) w1 = (Returns b, w2) /\
    _refine_extraction sof_text [a; b] w2 = (Returns final, w').
Proof.
  unfold get_structured_data, bind. intros H.
  destruct (py_not (environ w !! "GOOGLE_API_KEY")) eqn:G.
  { rewrite run_extraction_no_key in H by done. discriminate H. }
  destruct (environ w !! "GOOGLE_API_KEY") as [key|] eqn:E; [|done].
  assert (key <> "") as K by (by apply String.eqb_neq).
  destruct (_run_extraction sof_text 0 w) as [[a|e1] w1] eqn:R1;
    [|discriminate H].
  destruct (_run_extraction sof_text (3 # 10) w1) as [[b|e2] w2] eqn:R2;
    [|discriminate H].
  destruct (_refine_extraction sof_text [a; b] w2) as [[c|e3] w3] eqn:R;
    [|discriminate H].
  unfold ret in H. injection H as -> ->.
  by exists key, a, b, w1, w2.
Qed.

Lemma run_extraction_returns sof_text temp key w a w1 :
  environ w !! "GOOGLE_API_KEY" = Some key -> key <> "" ->
  _run_extraction sof_text temp w = (Returns a, w1) ->
  w1 = after_request key (extraction_request key sof_text temp) w.
Proof.
  intros E K. rewrite (run_extraction_with_key _ _ key) by done. simpl.
  destruct (llm_service _ _) as [response|e]; [|discriminate].
  destruct (parse_response_frame response
              (after_request key (extraction_request key sof_text temp) w))
    as [r ->]. by intros [= _ <-].
Qed.

Lemma refine_extraction_returns sof_text a b key w final w1 :
  environ w !! "GOOGLE_API_KEY" = Some key -> key <> "" ->
  _refine_extraction sof_text [a; b] w = (Returns final, w1) ->
  w1 = after_request key (refine_request key sof_text a b) w.
Proof.
  intros E K. rewrite (refine_extraction_with_key _ _ _ key) by done. simpl.
  destruct (llm_service _ _) as [response|e]; [|discriminate].
  destruct (parse_response_frame response
              (after_request key (refine_request key sof_text a b) w))
    as [r ->]. by intros [= _ <-].
Qed.

(** The [finally] block leaves no file at the path; it raises exactly
    when the path holds no file and is a directory. *)
Lemma cleanup_upload_spec (file : UploadFile) (p : string) (w : World) :
  exists w',
    cleanup_upload file p w
    = (if bool_decide (is_Some (fs w !! p)) || negb (is_directory p)
       then Returns () else Raises (is_a_directory_error p), w') /\
    fs w' = delete p (fs w).
Proof.
  unfold cleanup_upload, bind, close_upload, os_path_exists, os_remove.
  destruct (bool_decide (stream file ∈ closed_streams w)); simpl;
    destruct (fs w !! p) as [c|] eqn:F; simpl;
    rewrite ?F; simpl; destruct (is_directory p); simpl; rewrite ?F;
    eexists; (split; [reflexivity|]); simpl;
    try reflexivity; by rewrite delete_id.
Qed.

Lemma cleanup_upload_returns (file : UploadFile) (p : string) (w : World) :
  is_Some (fs w !! p) \/ is_directory p = false ->
  fst (cleanup_upload file p w) = Returns ().
Proof.
  intros H. destruct (cleanup_upload_spec file p w) as (w' & -> & _). simpl.
  destruct H as [H| ->].
  - by rewrite bool_decide_eq_true_2.
  - by rewrite orb_true_r.
Qed.





(** On success a loop turn appends the pipeline's dict with [fileName]
    set to the upload's name. *)
Lemma process_file_returns (file : UploadFile) (l : list JSON) (w : World)
  (l' : list JSON) (w' : World) :
  process_file file l w = (Returns l', w') ->
  exists raw_text w0 w1 d,
    get_structured_data raw_text w0 = (Returns (JObject d), w1) /\
    l' = (l ++ [JObject (dict_set "fileName" (JStr (filename file)) d)])%list.
Proof.
  unfold process_file, try_finally, try_except.
  set (p := os_path_join uploads_dir (filename file)).
  destruct (handle_upload file p l w) as [[res|e] w1] eqn:B; simpl.
  2: { unfold raise.
       destruct (cleanup_upload_spec file p w1) as (w2 & -> & _).
       destruct (_ || _); discriminate. }
  destruct (cleanup_upload_spec file p w1) as (w2 & -> & _).
  destruct (_ || _); [|discriminate].
  intros [= <- <-].
  revert B. unfold handle_upload, bind, save_upload, read_document.
  destruct (open_error p); [discriminate|].
  destruct (bool_decide (stream file ∈ closed_streams w)); [discriminate|].
  destruct (extract_text_from_document _ _) as [raw|e]; [|discriminate].
  match goal with |- context [get_structured_data raw ?w0] =>
    destruct (get_structured_data raw w0) as [[j|e] w3] eqn:G end;
    [|discriminate].
  destruct j; simpl; try discriminate.
  unfold ret. intros [= <- <-].
  eexists _, _, _, _. split; [exact G | reflexivity].
Qed.

(** C3. A run of [get_structured_data] that returns has made, in this
    order, an extraction of the text at temperature 0.0 (candidate a), an
    extraction of the text at temperature 0.3 (candidate b) and a
    refinement of the text with [a; b]; these six entries are all it added
    to the calls, and what it returns is what the refinement returned.  A
    dumped model has no [fileName] key: the upload handler sets it on the
    returned dict. *)
Theorem pipeline_sequence (sof_text : string) (w : World) (final : JSON)
  (w' : World) :
  get_structured_data sof_text w = (Returns final, w') ->
  (exists key a b w1 w2,
      _run_extraction sof_text 0 w = (Returns a, w1) /\
      _run_extraction sof_text (3 # 10) w1 = (Returns b, w2) /\
      _refine_extraction sof_text [a; b] w2 = (Returns final, w') /\
      calls w' =
      (calls w ++
       [ClientCreated (Some key);
        GenerateContent (extraction_request key sof_text 0);
        ClientCreated (Some key);
        GenerateContent (extraction_request key sof_text (3 # 10));
        ClientCreated (Some key);
        GenerateContent (refine_request key sof_text a b)])%list) /\
  (forall m, final = model_dump m ->
             exists d, final = JObject d /\ dict_get "fileName" d = None) /\
  (forall file l w0 l' w0',
      process_file file l w0 = (Returns l', w0') ->
      exists raw_text wa wb d,
        get_structured_data raw_text wa = (Returns (JObject d), wb) /\
        l' = (l ++ [JObject (dict_set "fileName" (JStr (filename file)) d)])%list).
Proof.
  intros H. split; [|split].
  - destruct (get_structured_data_returns _ _ _ _ H)
      as (key & a & b & w1 & w2 & [E K] & R1 & R2 & R3).
    exists key, a, b, w1, w2. repeat (split; [done|]).
    pose proof (run_extraction_returns _ _ _ _ _ _ E K R1) as ->.
    assert (w2 = after_request key (extraction_request key sof_text (3 # 10))
                   (after_request key (extraction_request key sof_text 0) w))
      as -> by (by apply (run_extraction_returns _ _ key _ b)).
    assert (w' = after_request key (refine_request key sof_text a b)
                   (after_request key (extraction_request key sof_text (3 # 10))
                      (after_request key (extraction_request key sof_text 0) w)))
      as -> by (by apply (refine_extraction_returns _ _ _ key _ final)).
    unfold after_request. simpl. by rewrite <- !app_assoc.
  - intros m ->. apply model_dump_no_fileName.
  - intros file l w0 l' w0'. apply process_file_returns.
Qed.



(* ===================================================================== *)
(** ** Which fields may be missing, which may be null *)
(* ===================================================================== *)

(** C6 (as the code has it). For a field [k] that a model class declares:
    a payload without the key [k] fails validation, because no field has a
    default; a payload that validates still validates with [k] set to
    [null] when [k] is annotated [Optional]; and the fields that refuse
    [null] are exactly [document_details], [events] and [laytime_notes] of
    [SoFSchema].  So every leaf field and [approvals] are nullable, and
    every declared key, [approvals] included, has to be present. *)
Theorem fields_nullable_but_required (c : ModelClass) (k : string)
  (d : list (string * JSON)) :
  k ∈ model_fields c ->
  (dict_get k d = None -> validates c (JObject d) = false) /\
  (k ∈ nullable_fields c -> validates c (JObject d) = true ->
   validates c (JObject (dict_set k JNull d)) = true) /\
  (k ∉ nullable_fields c -> dict_get k d = Some JNull ->
   validates c (JObject d) = false) /\
  (k ∉ nullable_fields c <->
   c = SoFSchema_cls /\ k ∈ ["document_details"; "events"; "laytime_notes"]).
Proof.
  intros Hk. split; [by apply missing_field_rejected|].
  split; [by apply null_field_accepted|].
  split; [by apply null_rejected_when_not_nullable|].
  split.
  - intros Hn. destruct c; try (by destruct (Hn Hk)).
    split; [reflexivity|]. simpl in Hk, Hn.
    split_membership Hk; try (by repeat constructor).
    destruct Hn. by constructor.
  - intros [-> Hin] Hn. simpl in Hn.
    split_membership Hn.
    repeat (apply elem_of_cons in Hin as [Heq | Hin]; [discriminate Heq|]).
    by apply elem_of_nil in Hin.
Qed.

(* ===================================================================== *)
(** ** Further facts about processor.py *)
(* ===================================================================== *)

Lemma prefix_app (s t : string) : String.prefix s (s +:+ t) = true.
Proof.
  induction s as [|c s IH]; [by destruct t|].
  change (String.prefix (String c s) (String c (s +:+ t)) = true).
  simpl. destruct (Ascii.ascii_dec c c); [exact IH | done].
Qed.

Lemma llm_requests_app (l1 l2 : list Call) :
  llm_requests (l1 ++ l2) = (llm_requests l1 ++ llm_requests l2)%list.
Proof. apply omap_app. Qed.

(** With a key, a helper's final world does not depend on the answer. *)
Lemma run_extraction_world sof_text temp key w :
  environ w !! "GOOGLE_API_KEY" = Some key -> key <> "" ->
  exists result,
    _run_extraction sof_text temp w =
    (result, after_request key (extraction_request key sof_text temp) w).
Proof.
  intros E K. rewrite (run_extraction_with_key _ _ key) by done. simpl.
  destruct (llm_service _ _) as [response|e]; [|by eauto].
  destruct (parse_response_frame response
              (after_request key (extraction_request key sof_text temp) w))
    as [r ->]. by eauto.
Qed.

Lemma refine_extraction_world sof_text a b key w :
  environ w !! "GOOGLE_API_KEY" = Some key -> key <> "" ->
  exists result,
    _refine_extraction sof_text [a; b] w =
    (result, after_request key (refine_request key sof_text a b) w).
Proof.
  intros E K. rewrite (refine_extraction_with_key _ _ _ key) by done. simpl.
  destruct (llm_service _ _) as [response|e]; [|by eauto].
  destruct (parse_response_frame response
              (after_request key (refine_request key sof_text a b) w))
    as [r ->]. by eauto.
Qed.

(** X1. Dumping a record and validating the dump gives the record back:
    [model_dump] loses nothing and its output always conforms to
    [SoFSchema]. *)
Theorem model_dump_round_trip (m : SoFSchema) :
  validate_SoFSchema (model_dump m) = Some m /\
  validates SoFSchema_cls (model_dump m) = true.
Proof.
  split; [apply validate_model_dump|].
  apply validates_is_Some. rewrite validate_model_dump. by eexists.
Qed.

(** X2. With a key configured, [_run_extraction] builds one client with
    that key and sends exactly one request, whatever the service answers:
    to the model gemini-2.5-pro, with the temperature it was given, the
    JSON mime type and [SoFSchema] as response schema; the contents are the
    document text, a blank line and the fixed guidelines. *)
Theorem extraction_sends_one_request (sof_text key : string) (temp : Q)
  (w : World) :
  environ w !! "GOOGLE_API_KEY" = Some key -> key <> "" ->
  exists result w' r,
    _run_extraction sof_text temp w = (result, w') /\
    calls w' = (calls w ++ [ClientCreated (Some key); GenerateContent r])%list /\
    req_client r = {| client_api_key := Some key |} /\
    req_model r = "gemini-2.5-pro" /\
    req_config r = {| response_mime_type := "application/json";
                      response_schema := SoFSchema_cls;
                      temperature := temp |} /\
    req_contents r = sof_text +:+ "

" +:+ extraction_prompt /\
    String.prefix sof_text (req_contents r) = true.
Proof.
  intros E K.
  destruct (run_extraction_world sof_text temp key w E K) as [result H].
  exists result, (after_request key (extraction_request key sof_text temp) w),
    (extraction_request key sof_text temp).
  split; [exact H|]. repeat (split; [reflexivity|]).
  apply prefix_app.
Qed.

(** X3. An error raised by the service leaves [get_structured_data] as it
    is, and nothing is sent after it: a failure of the first extraction
    costs one request, of the second two, of the refinement three.  No
    request is repeated. *)
Theorem service_error_propagates (sof_text key : string) (w : World) (e : exn) :
  environ w !! "GOOGLE_API_KEY" = Some key -> key <> "" ->
  let r1 := extraction_request key sof_text 0 in
  let r2 := extraction_request key sof_text (3 # 10) in
  (llm_service (calls w ++ [ClientCreated (Some key)]) r1 = Raises e ->
   get_structured_data sof_text w = (Raises e, after_request key r1 w)) /\
  (forall a w1,
      _run_extraction sof_text 0 w = (Returns a, w1) ->
      llm_service (calls w1 ++ [ClientCreated (Some key)]) r2 = Raises e ->
      get_structured_data sof_text w
      = (Raises e, after_request key r2 (after_request key r1 w))) /\
  (forall a b w1 w2,
      _run_extraction sof_text 0 w = (Returns a, w1) ->
      _run_extraction sof_text (3 # 10) w1 = (Returns b, w2) ->
      llm_service (calls w2 ++ [ClientCreated (Some key)])
        (refine_request key sof_text a b) = Raises e ->
      get_structured_data sof_text w
      = (Raises e,
         after_request key (refine_request key sof_text a b)
           (after_request key r2 (after_request key r1 w)))).
Proof.
  intros E K r1 r2. split; [|split].
  - intros S. unfold get_structured_data, bind.
    rewrite (run_extraction_with_key _ _ key) by done. cbv zeta.
    fold r1. by rewrite S.
  - intros a w1 R1 S. unfold get_structured_data, bind. rewrite R1.
    assert (w1 = after_request key r1 w) as ->
      by (by apply (run_extraction_returns _ _ key _ a)).
    rewrite (run_extraction_with_key _ _ key) by done. cbv zeta.
    fold r2. by rewrite S.
  - intros a b w1 w2 R1 R2 S. unfold get_structured_data, bind. rewrite R1.
    assert (w1 = after_request key r1 w) as ->
      by (by apply (run_extraction_returns _ _ key _ a)).
    rewrite R2.
    assert (w2 = after_request key r2 (after_request key r1 w)) as ->
      by (by apply (run_extraction_returns _ _ key _ b)).
    rewrite (refine_extraction_with_key _ _ _ key) by done. cbv zeta.
    by rewrite S.
Qed.

(** X4. Whatever happens, [get_structured_data] only appends to the calls
    made so far, and what it appends holds at most three requests. *)
Theorem pipeline_at_most_three_requests (sof_text : string) (w : World) :
  exists added,
    calls (snd (get_structured_data sof_text w)) = (calls w ++ added)%list /\
    length (llm_requests added) <= 3.
Proof.
  destruct (py_not (environ w !! "GOOGLE_API_KEY")) eqn:G.
  { exists []. unfold get_structured_data, bind.
    rewrite run_extraction_no_key by done. simpl.
    split; [by rewrite app_nil_r | lia]. }
  destruct (environ w !! "GOOGLE_API_KEY") as [key|] eqn:E; [|done].
  assert (key <> "") as K by (by apply String.eqb_neq).
  unfold get_structured_data, bind.
  destruct (run_extraction_world sof_text 0 key w E K) as [res1 ->].
  destruct res1 as [a|e1].
  2: { eexists. split; [reflexivity|]. simpl. lia. }
  destruct (run_extraction_world sof_text (3 # 10) key
              (after_request key (extraction_request key sof_text 0) w) E K)
    as [res2 ->].
  destruct res2 as [b|e2].
  2: { eexists. simpl. rewrite <- app_assoc. split; [reflexivity|].
       simpl. lia. }
  match goal with |- context [_refine_extraction sof_text [a; b] ?w0] =>
    destruct (refine_extraction_world sof_text a b key w0 E K) as [res3 ->] end.
  destruct res3 as [c|e3]; eexists; simpl; rewrite <- !app_assoc;
    (split; [reflexivity|]); simpl; lia.
Qed.

(** X5. The pipeline reads the environment and talks to the service and
    does nothing else: environment, files, upload streams and background
    tasks are after the run what they were before it. *)
Theorem pipeline_touches_only_calls (sof_text : string) (w : World) :
  let w' := snd (get_structured_data sof_text w) in
  environ w' = environ w /\ fs w' = fs w /\
  closed_streams w' = closed_streams w /\
  background_tasks w' = background_tasks w.
Proof.
  destruct (get_structured_data_frame sof_text w) as (r & l & H).
  simpl. rewrite H. by repeat split.
Qed.

(** X6. With a key configured and fewer than two candidates,
    [_refine_extraction] raises [IndexError] after it has built the client
    and before it sends anything. *)
Theorem refine_too_few_candidates (sof_text key : string)
  (extracted_jsons : list JSON) (w : World) :
  environ w !! "GOOGLE_API_KEY" = Some key -> key <> "" ->
  length extracted_jsons < 2 ->
  _refine_extraction sof_text extracted_jsons w
  = (Raises (Exn IndexError "list index out of range"),
     set_calls (calls w ++ [ClientCreated (Some key)]) w).
Proof.
  intros E K L. unfold _refine_extraction, bind, os_getenv. rewrite E.
  rewrite (py_not_false _ K). unfold genai_Client, list_getitem.
  destruct extracted_jsons as [|a [|b rest]]; simpl in *; try reflexivity.
  lia.
Qed.

(** X7. The raw text is a fallback for validation errors only.  When the
    response carries a model, both helpers return its dump without reading
    the text; when reading the structured part raises anything but a
    [ValidationError] the exception leaves the helper, and when the
    structured part is [None] an [AttributeError] does; in neither case is
    the text decoded. *)
Theorem structured_part_decides (sof_text key : string) (temp : Q)
  (candidate_a candidate_b : JSON) (w : World) (response : Response)
  (result : outcome JSON) :
  environ w !! "GOOGLE_API_KEY" = Some key -> key <> "" ->
  (llm_service (calls w ++ [ClientCreated (Some key)])
     (extraction_request key sof_text temp) = Returns response /\
   result = fst (_run_extraction sof_text temp w))
  \/
  (llm_service (calls w ++ [ClientCreated (Some key)])
     (refine_request key sof_text candidate_a candidate_b) = Returns response /\
   result = fst (_refine_extraction sof_text [candidate_a; candidate_b] w)) ->
  (forall m, parsed response = parsed_model m -> result = Returns (model_dump m)) /\
  (forall e, parsed response = parsed_raises e -> is_ValidationError e = false ->
             result = Raises e) /\
  (parsed response = parsed_None ->
   exists e, result = Raises e /\ exn_class e = AttributeError).
Proof.
  intros E K H.
  assert (exists w0, result = fst (parse_response response w0)) as [w0 ->].
  { destruct H as [[S ->]|[S ->]].
    - rewrite (run_extraction_with_key _ _ key) by done. simpl. rewrite S.
      by eauto.
    - rewrite (refine_extraction_with_key _ _ _ key) by done. simpl. rewrite S.
      by eauto. }
  unfold parse_response, try_except, parsed_model_dump.
  split; [|split].
  - by intros m ->.
  - intros e -> V. simpl. by rewrite V.
  - intros ->. simpl. by eexists.
Qed.

(* ===================================================================== *)
(** ** Further facts about the upload handler of main.py *)
(* ===================================================================== *)

(** A loop turn is its [try] block, its outcome relabelled by the
    [except] clause, followed by the [finally] block, whose exception, if
    it raises one, takes the place of the outcome. *)
Lemma process_file_outcome (file : UploadFile) (l : list JSON) (w : World) :
  let p := os_path_join uploads_dir (filename file) in
  process_file file l w =
  (match fst (cleanup_upload file p (snd (handle_upload file p l w))) with
   | Returns _ =>
       match fst (handle_upload file p l w) with
       | Returns res => Returns res
       | Raises cause => Raises (http_500 file cause)
       end
   | Raises e => Raises e
   end,
   snd (cleanup_upload file p (snd (handle_upload file p l w)))).
Proof.
  intros p. unfold process_file, try_finally, try_except. fold p.
  destruct (handle_upload file p l w) as [[res|cause] w1]; simpl.
  - by destruct (cleanup_upload file p w1) as [[[]|e] w2].
  - unfold raise. by destruct (cleanup_upload file p w1) as [[[]|e] w2].
Qed.

Lemma cleanup_upload_world (file : UploadFile) (p : string) (w : World) :
  let w' := snd (cleanup_upload file p w) in
  stream file ∈ closed_streams w' /\ calls w' = calls w /\
  environ w' = environ w /\ background_tasks w' = background_tasks w.
Proof.
  unfold cleanup_upload, bind, close_upload, os_path_exists, os_remove.
  destruct (bool_decide (stream file ∈ closed_streams w)) eqn:C; simpl;
    destruct (fs w !! p) as [c|] eqn:F; simpl; rewrite ?F; simpl;
    destruct (is_directory p); simpl; rewrite ?F;
    repeat split; try reflexivity;
    try (by apply bool_decide_eq_true in C);
    apply elem_of_union_l; by apply elem_of_singleton.
Qed.

(** Once the upload is saved and parsed, its file is at the path when the
    [try] block ends, however it ends. *)
Lemma handle_upload_saved_fs (file : UploadFile) (p : string) (l : list JSON)
  (w : World) (raw_text : string) :
  open_error p = None -> stream file ∉ closed_streams w ->
  extract_text_from_document p (<[p := body file]> (fs w)) = Returns raw_text ->
  fs (snd (handle_upload file p l w)) !! p = Some (body file).
Proof.
  intros O C X. unfold handle_upload, bind, save_upload, read_document.
  rewrite O. rewrite bool_decide_eq_false_2 by done. simpl. rewrite X.
  match goal with |- context [get_structured_data raw_text ?w0] =>
    destruct (get_structured_data_frame raw_text w0) as (r & c & ->) end.
  destruct r as [j|e]; simpl; [|apply lookup_insert_eq].
  unfold setitem, ret, raise. destruct j; simpl; apply lookup_insert_eq.
Qed.

Lemma handle_upload_frame (file : UploadFile) (p : string) (l : list JSON)
  (w : World) :
  let w' := snd (handle_upload file p l w) in
  environ w' = environ w /\ background_tasks w' = background_tasks w.
Proof.
  unfold handle_upload, bind, save_upload, read_document.
  destruct (open_error p); [done|].
  destruct (bool_decide (stream file ∈ closed_streams w)); [done|].
  destruct (extract_text_from_document _ _) as [raw|e]; [|done].
  match goal with |- context [get_structured_data raw ?w0] =>
    destruct (get_structured_data_frame raw w0) as (r & c & ->) end.
  destruct r as [j|e]; [|done].
  unfold setitem, ret, raise. by destruct j.
Qed.

(** The [try] block up to the pipeline call: the upload is saved and
    parsed, and no call has been made yet. *)
Lemma handle_upload_saved (file : UploadFile) (p : string) (l : list JSON)
  (w : World) (raw_text : string) :
  open_error p = None -> stream file ∉ closed_streams w ->
  extract_text_from_document p (<[p := body file]> (fs w)) = Returns raw_text ->
  handle_upload file p l w =
  match get_structured_data raw_text (set_fs (<[p := body file]> (fs w)) w) with
  | (Returns j, w1) =>
      match setitem j "fileName" (JStr (filename file)) w1 with
      | (Returns j', w2) => (Returns (l ++ [j'])%list, w2)
      | (Raises e, w2) => (Raises e, w2)
      end
  | (Raises e, w1) => (Raises e, w1)
  end.
Proof.
  intros O C X. unfold handle_upload, bind, save_upload, read_document.
  rewrite O. rewrite bool_decide_eq_false_2 by done. simpl. rewrite X.
  reflexivity.
Qed.

Lemma get_structured_data_returns_calls sof_text w final w' :
  get_structured_data sof_text w = (Returns final, w') ->
  length (llm_requests (calls w')) = length (llm_requests (calls w)) + 3.
Proof.
  intros H.
  destruct (get_structured_data_returns _ _ _ _ H)
    as (key & a & b & w1 & w2 & [E K] & R1 & R2 & R3).
  pose proof (run_extraction_returns _ _ _ _ _ _ E K R1) as ->.
  assert (w2 = after_request key (extraction_request key sof_text (3 # 10))
                 (after_request key (extraction_request key sof_text 0) w))
    as -> by (by apply (run_extraction_returns _ _ key _ b)).
  assert (w' = after_request key (refine_request key sof_text a b)
                 (after_request key (extraction_request key sof_text (3 # 10))
                    (after_request key (extraction_request key sof_text 0) w)))
    as -> by (by apply (refine_extraction_returns _ _ _ key _ final)).
  unfold after_request. simpl. rewrite !llm_requests_app, !length_app. simpl.
  lia.
Qed.

(** What a returning loop turn has done. *)
Lemma process_file_returns_world (file : UploadFile) (l : list JSON)
  (w : World) (l' : list JSON) (w' : World) :
  process_file file l w = (Returns l', w') ->
  (exists d, l' = (l ++ [JObject d])%list /\
             dict_get "fileName" d = Some (JStr (filename file))) /\
  length (llm_requests (calls w')) = length (llm_requests (calls w)) + 3.
Proof.
  rewrite process_file_outcome. cbv zeta.
  set (p := os_path_join uploads_dir (filename file)).
  pose proof (cleanup_upload_world file p (snd (handle_upload file p l w)))
    as (_ & Hcalls & _ & _).
  intros [= Hres <-]. rewrite Hcalls. clear Hcalls.
  destruct (fst (cleanup_upload file p _)); [|discriminate].
  revert Hres. unfold handle_upload, bind, save_upload, read_document.
  destruct (open_error p); [discriminate|].
  destruct (bool_decide (stream file ∈ closed_streams w)); [discriminate|].
  destruct (extract_text_from_document _ _) as [raw|e]; [|discriminate].
  match goal with |- context [get_structured_data raw ?w0] =>
    destruct (get_structured_data raw w0) as [[j|e] w3] eqn:G end;
    [|discriminate].
  apply get_structured_data_returns_calls in G. simpl in G.
  destruct j; simpl; try discriminate.
  intros [= <-]. split; [|exact G].
  eexists. split; [reflexivity|].
  rewrite dict_get_set. reflexivity.
Qed.


(** X9. When the pipeline hands back JSON that is not an object (the raw
    text fallback can), setting [fileName] on it fails and the turn ends
    in a 500 whose cause is a [TypeError]. *)
Theorem non_dict_result_is_rejected (file : UploadFile) (l : list JSON)
  (w : World) (raw_text : string) (j : JSON) (w1 : World) :
  let p := os_path_join uploads_dir (filename file) in
  open_error p = None -> stream file ∉ closed_streams w ->
  extract_text_from_document p (<[p := body file]> (fs w)) = Returns raw_text ->
  get_structured_data raw_text (set_fs (<[p := body file]> (fs w)) w)
  = (Returns j, w1) ->
  (forall d, j <> JObject d) ->
  exists cause,
    exn_class cause = TypeError /\
    fst (process_file file l w) = Raises (http_500 file cause).
Proof.
  intros p O C X G N. rewrite process_file_outcome. cbv zeta. fold p.
  rewrite (cleanup_upload_returns file p (snd (handle_upload file p l w)))
    by (left; rewrite (handle_upload_saved_fs file p l w raw_text O C X);
        by eexists).
  rewrite (handle_upload_saved file p l w raw_text O C X), G. simpl.
  destruct j; simpl; try (by eexists; split; [|reflexivity]).
  by destruct (N members).
Qed.

Lemma process_files_results (files : list UploadFile) (l : list JSON)
  (w : World) (l' : list JSON) (w' : World) :
  process_files files l w = (Returns l', w') ->
  exists ds,
    l' = (l ++ map JObject ds)%list /\
    Forall2 (fun file d => dict_get "fileName" d = Some (JStr (filename file)))
      files ds.
Proof.
  revert l w. induction files as [|file files IH]; intros l w; simpl.
  { intros [= <- _]. exists []. split; [by rewrite app_nil_r | constructor]. }
  unfold bind.
  destruct (process_file file l w) as [[l1|e] w1] eqn:P; [|discriminate].
  apply process_file_returns_world in P as [(d & -> & Hd) _].
  intros H. apply IH in H as (ds & -> & Hds).
  exists (d :: ds). split; [by rewrite <- app_assoc | by constructor].
Qed.

(** X10. A loop that returns has appended one dict per upload, in upload
    order, each carrying its upload's name under [fileName]; what was in
    the list before is kept in front. *)
Theorem results_tagged_in_order (files : list UploadFile) (l : list JSON)
  (w : World) (l' : list JSON) (w' : World) :
  process_files files l w = (Returns l', w') ->
  exists ds,
    l' = (l ++ map JObject ds)%list /\
    Forall2 (fun file d => dict_get "fileName" d = Some (JStr (filename file)))
      files ds.
Proof. apply process_files_results. Qed.

(** X11. A loop that returns has sent exactly three requests per upload. *)
Theorem three_requests_per_upload (files : list UploadFile) (l : list JSON)
  (w : World) (l' : list JSON) (w' : World) :
  process_files files l w = (Returns l', w') ->
  length (llm_requests (calls w'))
  = length (llm_requests (calls w)) + 3 * length files.
Proof.
  revert l w. induction files as [|file files IH]; intros l w; simpl.
  { intros [= _ <-]. lia. }
  unfold bind.
  destruct (process_file file l w) as [[l1|e] w1] eqn:P; [|discriminate].
  apply process_file_returns_world in P as [_ Hc].
  intros H. apply IH in H. lia.
Qed.

Lemma process_file_frame (file : UploadFile) (l : list JSON) (w : World) :
  let w' := snd (process_file file l w) in
  environ w' = environ w /\ background_tasks w' = background_tasks w /\
  stream file ∈ closed_streams w'.
Proof.
  rewrite process_file_outcome. cbv zeta. simpl.
  set (p := os_path_join uploads_dir (filename file)).
  pose proof (cleanup_upload_world file p (snd (handle_upload file p l w)))
    as (Hs & _ & He & Hb).
  pose proof (handle_upload_frame file p l w) as (He' & Hb').
  simpl in *. by rewrite He, Hb, He', Hb'.
Qed.

Lemma handle_upload_streams (file : UploadFile) (p : string) (l : list JSON)
  (w : World) :
  closed_streams (snd (handle_upload file p l w)) = closed_streams w.
Proof.
  unfold handle_upload, bind, save_upload, read_document.
  destruct (open_error p); [done|].
  destruct (bool_decide (stream file ∈ closed_streams w)); [done|].
  destruct (extract_text_from_document _ _) as [raw|e]; [|done].
  match goal with |- context [get_structured_data raw ?w0] =>
    destruct (get_structured_data_frame raw w0) as (r & c & ->) end.
  destruct r as [j|e]; [|done].
  unfold setitem, ret, raise. by destruct j.
Qed.

Lemma cleanup_upload_streams (file : UploadFile) (p : string) (w : World) :
  closed_streams (snd (cleanup_upload file p w))
  = {[stream file]} ∪ closed_streams w.
Proof.
  unfold cleanup_upload, bind, close_upload, os_path_exists, os_remove.
  destruct (bool_decide (stream file ∈ closed_streams w)) eqn:C; simpl;
    destruct (fs w !! p) as [c|] eqn:F; simpl; rewrite ?F; simpl;
    destruct (is_directory p); simpl; rewrite ?F;
    try reflexivity; apply bool_decide_eq_true in C;
    symmetry; apply subseteq_union_1_L; by apply singleton_subseteq_l.
Qed.

Lemma process_file_streams (file : UploadFile) (l : list JSON) (w : World) :
  closed_streams (snd (process_file file l w))
  = {[stream file]} ∪ closed_streams w.
Proof.
  rewrite process_file_outcome. cbv zeta. simpl.
  by rewrite cleanup_upload_streams, handle_upload_streams.
Qed.

Lemma process_files_frame (files : list UploadFile) (l : list JSON) (w : World) :
  let w' := snd (process_files files l w) in
  environ w' = environ w /\ background_tasks w' = background_tasks w /\
  closed_streams w ⊆ closed_streams w'.
Proof.
  revert l w. induction files as [|file files IH]; intros l w; simpl.
  { done. }
  unfold bind.
  pose proof (process_file_frame file l w) as (He & Hb & _).
  pose proof (process_file_streams file l w) as Hs.
  destruct (process_file file l w) as [[l1|e] w1]; simpl in *.
  - destruct (IH l1 w1) as (He1 & Hb1 & Hs1).
    rewrite He1, Hb1, He, Hb. repeat split; try done.
    etrans; [|exact Hs1]. rewrite Hs. apply union_subseteq_r.
  - repeat split; try done. rewrite Hs. apply union_subseteq_r.
Qed.

Lemma process_files_streams (files : list UploadFile) (l : list JSON)
  (w : World) (l' : list JSON) (w' : World) :
  process_files files l w = (Returns l', w') ->
  Forall (fun file => stream file ∈ closed_streams w') files.
Proof.
  revert l w. induction files as [|file files IH]; intros l w; simpl.
  { constructor. }
  unfold bind. intros H.
  pose proof (process_file_streams file l w) as Hs.
  destruct (process_file file l w) as [[l1|e] w1]; [|discriminate H].
  simpl in Hs. constructor; [|by eapply IH].
  pose proof (process_files_frame files l1 w1) as (_ & _ & Hsub).
  rewrite H in Hsub. simpl in Hsub. apply Hsub. rewrite Hs.
  apply elem_of_union_l. by apply elem_of_singleton.
Qed.

(** What a returning handler has done. *)
Lemma process_uploaded_files_returns (files : list UploadFile) (w : World)
  (j : JSON) (w' : World) :
  process_uploaded_files files w = (Returns j, w') ->
  open_error "output.json" = None /\
  exists l w0,
    process_files files [] w = (Returns l, w0) /\ j = JArray l /\
    w' = set_background_tasks
           (background_tasks w0 ++ [clear_output_file_task "output.json"])
           (set_fs (<["output.json" := json_dumps false (JArray l)]> (fs w0)) w0).
Proof.
  unfold process_uploaded_files, bind, write_text, add_task, ret.
  destruct (process_files files [] w) as [[l|e] w0]; [|discriminate].
  destruct (open_error "output.json"); [discriminate|].
  intros [= <- <-]. split; [reflexivity|]. by exists l, w0.
Qed.

(** X12. When the handler returns, its value is a list with one entry
    per upload, [output.json] holds the dump of that very list, and one
    task to clear [output.json] has been added.  When it raises, no task
    has been added. *)
Theorem handler_outcome (files : list UploadFile) (w : World) :
  match process_uploaded_files files w with
  | (Returns j, w') =>
      (exists l, j = JArray l /\ length l = length files) /\
      fs w' !! "output.json" = Some (json_dumps false j) /\
      background_tasks w'
      = (background_tasks w ++ [clear_output_file_task "output.json"])%list
  | (Raises e, w') => background_tasks w' = background_tasks w
  end.
Proof.
  destruct (process_uploaded_files files w) as [[j|e] w'] eqn:H.
  - apply process_uploaded_files_returns in H
      as (_ & l & w0 & Hloop & -> & ->).
    pose proof (process_files_frame files [] w) as (_ & Hb & _).
    rewrite Hloop in Hb. simpl in Hb.
    apply process_files_results in Hloop as (ds & -> & Hds).
    split; [|split].
    + eexists. split; [reflexivity|]. simpl.
      rewrite length_map. symmetry. by eapply Forall2_length.
    + simpl. apply lookup_insert_eq.
    + simpl. by rewrite Hb.
  - revert H. unfold process_uploaded_files, bind, write_text, add_task, ret.
    pose proof (process_files_frame files [] w) as (_ & Hb & _).
    destruct (process_files files [] w) as [[l|e0] w0]; simpl in Hb.
    + destruct (open_error "output.json"); [|discriminate].
      by intros [= _ <-].
    + by intros [= _ <-].
Qed.

(** X13. [clear_output_file] never raises.  Where the file can be opened
    it then holds the empty JSON array; where it cannot, nothing has
    changed.  No other file is touched. *)
Theorem clear_output_file_never_raises (file_path : string) (w : World) :
  exists w',
    clear_output_file file_path w = (Returns (), w') /\
    (open_error file_path = None -> fs w' !! file_path = Some "[]") /\
    (is_Some (open_error file_path) -> w' = w) /\
    (forall q, q <> file_path -> fs w' !! q = fs w !! q).
Proof.
  unfold clear_output_file, try_except, write_text, ret.
  destruct (open_error file_path) as [e|]; simpl.
  - exists w. split; [reflexivity|]. split; [discriminate|]. by split.
  - eexists. split; [reflexivity|]. split; [|split].
    + intros _. simpl. apply lookup_insert_eq.
    + by intros [? [=]].
    + intros q Hq. simpl. by rewrite lookup_insert_ne.
Qed.

(** X14. However a loop turn ends, the upload's stream is closed after
    it and no stream that was closed has been reopened; when the loop
    returns, the stream of every upload is closed. *)
Theorem stream_closed_on_every_exit (file : UploadFile)
  (files : list UploadFile) (l : list JSON) (w : World) :
  closed_streams (snd (process_file file l w))
  = {[stream file]} ∪ closed_streams w /\
  match process_files files l w with
  | (Returns _, w') => Forall (fun f => stream f ∈ closed_streams w') files
  | (Raises _, _) => True
  end.
Proof.
  split; [apply process_file_streams|].
  destruct (process_files files l w) as [[l'|e] w'] eqn:H; [|done].
  by eapply process_files_streams.
Qed.

(** X15. The results do not outlive the request: for a request that
    started without pending tasks and whose handler returned, running the
    background tasks leaves the empty JSON array in [output.json] and no
    task pending. *)
Theorem results_wiped_after_response (files : list UploadFile) (w : World)
  (j : JSON) (w1 : World) :
  background_tasks w = [] ->
  process_uploaded_files files w = (Returns j, w1) ->
  exists w2,
    run_background_tasks w1 = (Returns (), w2) /\
    fs w2 !! "output.json" = Some "[]" /\
    background_tasks w2 = [].
Proof.
  intros B H.
  apply process_uploaded_files_returns in H as (O & l & w0 & Hloop & -> & ->).
  pose proof (process_files_frame files [] w) as (_ & Hb & _).
  rewrite Hloop in Hb. simpl in Hb. rewrite B in Hb.
  unfold run_background_tasks. simpl. rewrite Hb. simpl.
  unfold bind, run_task, clear_output_file, try_except, write_text, ret.
  rewrite O. simpl. eexists. split; [reflexivity|].
  split; [apply lookup_insert_eq | reflexivity].
Qed.

(** X16. Without a usable key (unset or empty) an upload that was saved
    and parsed ends in a 500 whose detail is the file name followed by the
    missing-key message; no client was built, no request sent, and the
    saved file is gone. *)
Theorem upload_without_key (file : UploadFile) (l : list JSON) (w : World)
  (raw_text : string) :
  let p := os_path_join uploads_dir (filename file) in
  py_not (environ w !! "GOOGLE_API_KEY") = true ->
  open_error p = None -> stream file ∉ closed_streams w ->
  extract_text_from_document p (<[p := body file]> (fs w)) = Returns raw_text ->
  exists w',
    process_file file l w
    = (Raises (Exn (HTTPException 500)
                 ("Error while processing " +:+ filename file
                  +:+ ": Missing GOOGLE_API_KEY environment variable.")), w') /\
    calls w' = calls w /\ fs w' !! p = None.
Proof.
  intros p G O C X. rewrite process_file_outcome. cbv zeta. fold p.
  rewrite (cleanup_upload_returns file p (snd (handle_upload file p l w)))
    by (left; rewrite (handle_upload_saved_fs file p l w raw_text O C X);
        by eexists).
  rewrite (handle_upload_saved file p l w raw_text O C X).
  unfold get_structured_data, bind.
  rewrite run_extraction_no_key by done. simpl.
  eexists. split; [reflexivity|].
  match goal with |- context [cleanup_upload file p ?w0] =>
    pose proof (cleanup_upload_world file p w0) as (_ & Hc & _);
    destruct (cleanup_upload_spec file p w0) as (w2 & Hclean & Hfs) end.
  simpl in Hc. rewrite Hc. split; [reflexivity|].
  rewrite Hclean. simpl. rewrite Hfs. apply lookup_delete_eq.
Qed.

(** X17. An upload that cannot be saved or cannot be parsed costs no
    call: the turn raises and the calls are what they were. *)
Theorem early_failure_sends_nothing (file : UploadFile) (l : list JSON)
  (w : World) :
  let p := os_path_join uploads_dir (filename file) in
  is_Some (open_error p) \/ stream file ∈ closed_streams w \/
  (exists e, extract_text_from_document p (<[p := body file]> (fs w)) = Raises e) ->
  exists e w',
    process_file file l w = (Raises e, w') /\ calls w' = calls w.
Proof.
  intros p H.
  assert (exists cause,
             fst (handle_upload file p l w) = Raises cause /\
             calls (snd (handle_upload file p l w)) = calls w)
    as (cause & Hbody & Hcalls).
  { unfold handle_upload, bind, save_upload, read_document.
    destruct (open_error p) as [e|] eqn:O; simpl; [by eauto|].
    destruct (bool_decide (stream file ∈ closed_streams w)) eqn:C; simpl;
      [by eauto|].
    destruct H as [[? [=]]|[H|[e H]]].
    { apply bool_decide_eq_false in C. done. }
    rewrite H. simpl. by eauto. }
  rewrite process_file_outcome. cbv zeta. fold p. rewrite Hbody.
  pose proof (cleanup_upload_world file p (snd (handle_upload file p l w)))
    as (_ & Hc & _).
  simpl in Hc. rewrite Hcalls in Hc.
  destruct (fst (cleanup_upload file p _)); by eexists _, _.
Qed.

Lemma process_files_app (xs ys : list UploadFile) (l : list JSON) (w : World) :
  process_files (xs ++ ys) l w
  = match process_files xs l w with
    | (Returns l1, w1) => process_files ys l1 w1
    | (Raises e, w1) => (Raises e, w1)
    end.
Proof.
  revert l w. induction xs as [|x xs IH]; intros l w; simpl; [done|].
  unfold bind. destruct (process_file x l w) as [[l1|e] w1]; [apply IH|done].
Qed.

Lemma process_files_streams_eq (files : list UploadFile) (l : list JSON)
  (w : World) (l' : list JSON) (w' : World) :
  process_files files l w = (Returns l', w') ->
  closed_streams w' = list_to_set (stream <$> files) ∪ closed_streams w.
Proof.
  revert l w. induction files as [|file files IH]; intros l w; simpl.
  { intros [= _ <-]. by rewrite union_empty_l_L. }
  unfold bind. intros H.
  pose proof (process_file_streams file l w) as Hs.
  destruct (process_file file l w) as [[l1|e] w1]; [|discriminate H].
  simpl in Hs. rewrite (IH _ _ H), Hs.
  rewrite (union_comm_L {[stream file]} (list_to_set _)).
  by rewrite union_assoc_L.
Qed.

(** X18. The first turn that raises ends the request: the handler raises
    that turn's exception in that turn's world, so the uploads after it
    are not saved, parsed, sent or closed, the results of the uploads
    before it are dropped, and the closed streams are those of the uploads
    up to the failing one. *)
Theorem first_failure_ends_request (earlier : list UploadFile) (file : UploadFile)
  (rest : list UploadFile) (w : World) (l1 : list JSON) (w1 : World)
  (e : exn) (w2 : World) :
  process_files earlier [] w = (Returns l1, w1) ->
  process_file file l1 w1 = (Raises e, w2) ->
  process_uploaded_files (earlier ++ file :: rest) w = (Raises e, w2) /\
  closed_streams w2
  = {[stream file]} ∪ (list_to_set (stream <$> earlier) ∪ closed_streams w).
Proof.
  intros Hdone Hfile. split.
  - unfold process_uploaded_files, bind.
    rewrite process_files_app, Hdone. simpl. unfold bind. by rewrite Hfile.
  - pose proof (process_file_streams file l1 w1) as Hs.
    rewrite Hfile in Hs. simpl in Hs.
    by rewrite Hs, (process_files_streams_eq _ _ _ _ _ Hdone).
Qed.

(** X19. The whole turn on the structured path: with a key, an upload
    that can be saved and parsed, and a service that answers every request
    with the model [m], the turn appends the dump of [m] with [fileName]
    as its fifth and last key, after exactly three requests, and the saved
    file is gone. *)
Theorem upload_structured_path (file : UploadFile) (l : list JSON) (w : World)
  (key raw_text : string) (m : SoFSchema) :
  let p := os_path_join uploads_dir (filename file) in
  environ w !! "GOOGLE_API_KEY" = Some key -> key <> "" ->
  open_error p = None -> stream file ∉ closed_streams w ->
  extract_text_from_document p (<[p := body file]> (fs w)) = Returns raw_text ->
  (forall history r, llm_service history r = Returns (structured_response m)) ->
  exists d w',
    process_file file l w = (Returns (l ++ [JObject d])%list, w') /\
    model_dump m = JObject (take 4 d) /\
    drop 4 d = [("fileName", JStr (filename file))] /\
    map fst d = (model_fields SoFSchema_cls ++ ["fileName"])%list /\
    length (llm_requests (calls w')) = length (llm_requests (calls w)) + 3 /\
    fs w' !! p = None.
Proof.
  intros p E K O C X S.
  pose proof (process_file_outcome file l w) as Hout. cbv zeta in Hout.
  fold p in Hout.
  rewrite (cleanup_upload_returns file p (snd (handle_upload file p l w)))
    in Hout
    by (left; rewrite (handle_upload_saved_fs file p l w raw_text O C X);
        by eexists).
  rewrite (handle_upload_saved file p l w raw_text O C X) in Hout.
  destruct (pipeline_returns_model m raw_text key
              (set_fs (<[p := body file]> (fs w)) w) E K S) as [w1 Hrun].
  rewrite Hrun in Hout. simpl in Hout.
  eexists _, _. split; [exact Hout|].
  split; [reflexivity|]. split; [reflexivity|]. split; [reflexivity|].
  pose proof (cleanup_upload_world file p w1) as (_ & Hc & _).
  destruct (cleanup_upload_spec file p w1) as (w2 & Hclean & Hfs).
  simpl in Hc. split.
  - rewrite Hc.
    by apply get_structured_data_returns_calls in Hrun.
  - rewrite Hclean. simpl. rewrite Hfs. apply lookup_delete_eq.
Qed.

End Backend.

(* ===================================================================== *)
(** ** The theorems at sample inputs *)
(* ===================================================================== *)

(** C1. The service's structured response fails validation and its raw
    text is the JSON object without members: [get_structured_data] returns
    that object, which does not validate against [SoFSchema], although
    the function is documented to return a [SoFSchema] JSON.  And when the
    response has no structured part at all, the [AttributeError] of
    calling [model_dump] on [None] leaves the function, which is none of
    the three error kinds. *)
Theorem fallback_result_escapes_schema :
  let w := world_with_key "secret" in
  fst (get_structured_data (constant_service (invalid_response "{}"))
         sample_loads sample_dumps "Commenced loading 08:00 14 Mar" w)
  = Returns (JObject []) /\
  validates SoFSchema_cls (JObject []) = false /\
  exists e,
    fst (get_structured_data (constant_service (unparsed_response "{}"))
           sample_loads sample_dumps "Commenced loading 08:00 14 Mar" w)
    = Raises e /\
    exn_class e = AttributeError /\ is_defined_error_kind e = false.
Proof.
  split; [vm_compute; reflexivity|]. split; [vm_compute; reflexivity|].
  eexists. split; [vm_compute; reflexivity|]. split; reflexivity.
Qed.

(** C2. A response whose text fails the schema comes back from the client
    with its structured part [None]: both helpers then raise the
    [AttributeError] of calling [model_dump] on [None], which
    [except ValidationError] does not catch, so the raw text (here [{}],
    which [json.loads] decodes) is neither decoded nor validated and no
    validation error is raised.  And where the [except] branch is taken,
    because reading the structured part itself raises [ValidationError],
    both helpers return the decoded text although it does not validate
    against [SoFSchema]. *)
Theorem validation_fallback_missed :
  let w := world_with_key "secret" in
  let real := constant_service (unparsed_response "{}") in
  let raising := constant_service (invalid_response "{}") in
  (exists e,
      fst (_run_extraction real sample_loads "SOF" 0 w) = Raises e /\
      exn_class e = AttributeError /\ is_ValidationError e = false) /\
  (exists e,
      fst (_refine_extraction real sample_loads sample_dumps "SOF"
             [JNull; JNull] w) = Raises e /\
      exn_class e = AttributeError /\ is_ValidationError e = false) /\
  sample_loads "{}" = inl (JObject []) /\
  fst (_run_extraction raising sample_loads "SOF" 0 w) = Returns (JObject []) /\
  fst (_refine_extraction raising sample_loads sample_dumps "SOF"
         [JNull; JNull] w) = Returns (JObject []) /\
  validate_SoFSchema (JObject []) = None.
Proof.
  split; [eexists; repeat split; vm_compute; reflexivity|].
  split; [eexists; repeat split; vm_compute; reflexivity|].
  repeat split; vm_compute; reflexivity.
Qed.

(** C6, counterexample. The all-null payload validates; without the key
    [vessel_name] in [document_details], or without the key [approvals],
    it does not. *)
Lemma omitted_field_rejected :
  validates SoFSchema_cls (JObject blank_payload) = true /\
  validates SoFSchema_cls (JObject payload_without_vessel_name) = false /\
  validates SoFSchema_cls (JObject (dict_remove "approvals" blank_payload))
  = false.
Proof. repeat split; vm_compute; reflexivity. Qed.

(** C7, counterexample. The service answers with a record whose event has
    confidence 1.5: the pipeline returns it, it validates, and 1.5 is
    outside the unit interval. *)
Lemma confidence_above_one_returned :
  let m := record_of_event (event_with_confidence (3 # 2)) in
  let run :=
    get_structured_data (constant_service (structured_response m))
      sample_loads sample_dumps "SOF" (world_with_key "secret") in
  exists j, fst run = Returns j /\ validate_SoFSchema j = Some m /\
            confidences m = [3 # 2] /\ in_unit_interval (3 # 2) = false.
Proof.
  eexists. split; [vm_compute; reflexivity|].
  repeat split; vm_compute; reflexivity.
Qed.

(** C8, counterexample. The service answers with a record whose event has
    a [start_time] and no [end_time]: the pipeline returns it and it
    validates. *)
Lemma start_without_end_returned :
  let m := record_of_event open_ended_event in
  let run :=
    get_structured_data (constant_service (structured_response m))
      sample_loads sample_dumps "SOF" (world_with_key "secret") in
  exists j, fst run = Returns j /\ validate_SoFSchema j = Some m /\
            events m = [open_ended_event] /\
            start_time open_ended_event = Some "08:00" /\
            end_time open_ended_event = None /\
            both_or_neither open_ended_event = false.
Proof.
  eexists. split; [vm_compute; reflexivity|].
  repeat split; vm_compute; reflexivity.
Qed.

Lemma sample_key_found :
  environ (world_with_key "secret") !! "GOOGLE_API_KEY" = Some "secret".
Proof. vm_compute. reflexivity. Defined.

Lemma sample_key_nonempty : "secret" <> "".
Proof. intros H. discriminate H. Defined.

(** C3 at a sample input: the service answers every request with the
    blank record. *)
Lemma pipeline_sequence_witness :
  let run :=
    get_structured_data (constant_service (structured_response blank_record))
      sample_loads sample_dumps "SOF" (world_with_key "secret") in
  fst run = Returns (model_dump blank_record) /\
  map (fun r => temperature (req_config r)) (llm_requests (calls (snd run)))
  = [0%Q; 3 # 10; 0%Q].
Proof.
  intros run.
  assert (run = (Returns (model_dump blank_record), snd run)) as H
    by (vm_compute; reflexivity).
  destruct (pipeline_sequence
              (constant_service (structured_response blank_record))
              sample_loads sample_dumps sample_extract_text no_open_error no_directories
              "SOF" (world_with_key "secret") (model_dump blank_record)
              (snd run) H)
    as [(key & a & b & w1 & w2 & _ & _ & _ & Hcalls) _].
  split; [by rewrite H|]. rewrite Hcalls. reflexivity.
Defined.

(** C4 at a sample input: an environment without the key. *)
Lemma missing_credential_aborts_witness :
  let service := constant_service (structured_response blank_record) in
  _run_extraction service sample_loads "SOF" 0 world_without_key
  = (Raises missing_key_error, world_without_key) /\
  _refine_extraction service sample_loads sample_dumps "SOF" [JNull; JNull]
    world_without_key
  = (Raises missing_key_error, world_without_key) /\
  get_structured_data service sample_loads sample_dumps "SOF" world_without_key
  = (Raises missing_key_error, world_without_key).
Proof.
  intros service.
  apply (missing_credential_aborts service sample_loads sample_dumps "SOF" 0
           [JNull; JNull] world_without_key).
  vm_compute. reflexivity.
Defined.

(** C5 at a sample input: two empty candidates. *)
Lemma refine_sends_one_request_witness :
  exists result w' r,
    _refine_extraction (constant_service (structured_response blank_record))
      sample_loads sample_dumps "SOF" [JObject []; JArray []]
      (world_with_key "secret") = (result, w') /\
    llm_requests (calls w') = [r] /\
    temperature (req_config r) = 0%Q /\
    response_schema (req_config r) = SoFSchema_cls.
Proof.
  destruct (refine_sends_one_request
              (constant_service (structured_response blank_record))
              sample_loads sample_dumps "SOF" "secret" (JObject []) (JArray [])
              (world_with_key "secret") sample_key_found sample_key_nonempty)
    as (result & w' & r & Hrun & Hreq & Htemp & Hschema & _).
  exists result, w', r. repeat split; assumption.
Defined.

(** C6 at a sample input: the key [approvals] of the all-null payload. *)
Lemma fields_nullable_but_required_witness :
  validates SoFSchema_cls (JObject (dict_remove "approvals" blank_payload))
  = false /\
  validates SoFSchema_cls (JObject (dict_set "approvals" JNull blank_payload))
  = true.
Proof.
  assert ("approvals" ∈ model_fields SoFSchema_cls) as Hk
    by (simpl; repeat constructor).
  split.
  - apply (proj1 (fields_nullable_but_required SoFSchema_cls "approvals"
                    (dict_remove "approvals" blank_payload) Hk)).
    reflexivity.
  - apply (proj1 (proj2 (fields_nullable_but_required SoFSchema_cls
                           "approvals" blank_payload Hk))).
    + simpl. repeat constructor.
    + vm_compute. reflexivity.
Defined.

(** C7 at a sample input: an event with confidence 1.5. *)
Lemma confidence_range_not_checked_witness :
  let m := record_of_event (event_with_confidence (3 # 2)) in
  exists j w' m',
    get_structured_data (constant_service (structured_response m))
      sample_loads sample_dumps "SOF" (world_with_key "secret")
    = (Returns j, w') /\
    validate_SoFSchema j = Some m' /\ (3 # 2) ∈ confidences m'.
Proof.
  intros m.
  apply (proj1 (confidence_range_not_checked
                  (constant_service (structured_response m))
                  sample_loads sample_dumps m (3 # 2) "SOF" "secret"
                  (world_with_key "secret") sample_key_found
                  sample_key_nonempty (fun _ _ => eq_refl)
                  (list_elem_of_here _ _))).
Defined.

(** C8 at a sample input: an event that starts at 08:00 and has no end. *)
Lemma event_times_not_checked_witness :
  let m := record_of_event open_ended_event in
  exists j w' m',
    get_structured_data (constant_service (structured_response m))
      sample_loads sample_dumps "SOF" (world_with_key "secret")
    = (Returns j, w') /\
    validate_SoFSchema j = Some m' /\ open_ended_event ∈ events m'.
Proof.
  intros m.
  apply (proj1 (event_times_not_checked
                  (constant_service (structured_response m))
                  sample_loads sample_dumps m open_ended_event "SOF" "secret"
                  (world_with_key "secret") sample_key_found
                  sample_key_nonempty (fun _ _ => eq_refl)
                  (list_elem_of_here _ _))).
Defined.

(** C10 at a sample input: the key set to the empty string. *)
Lemma empty_credential_is_missing_witness :
  let service := constant_service (structured_response blank_record) in
  let w := world_with_key "" in
  _run_extraction service sample_loads "SOF" 0 w = (Raises missing_key_error, w) /\
  _refine_extraction service sample_loads sample_dumps "SOF" [JNull; JNull] w
  = (Raises missing_key_error, w).
Proof.
  intros service w.
  apply (empty_credential_is_missing service sample_loads sample_dumps "SOF" 0
           [JNull; JNull] w).
  vm_compute. reflexivity.
Defined.


(* ===================================================================== *)
(** ** The further theorems at sample inputs *)
(* ===================================================================== *)

Lemma sample_stream_open (w : World) :
  closed_streams w = ∅ -> stream sample_upload ∉ closed_streams w.
Proof. intros ->. apply not_elem_of_empty. Defined.

(** X2 at a sample input. *)
Lemma extraction_sends_one_request_witness :
  exists result w' r,
    _run_extraction (constant_service (structured_response blank_record))
      sample_loads "SOF" (3 # 10) (world_with_key "secret") = (result, w') /\
    calls w' = [ClientCreated (Some "secret"); GenerateContent r] /\
    temperature (req_config r) = 3 # 10 /\
    String.prefix "SOF" (req_contents r) = true.
Proof.
  destruct (extraction_sends_one_request
              (constant_service (structured_response blank_record))
              sample_loads "SOF" "secret" (3 # 10) (world_with_key "secret")
              sample_key_found sample_key_nonempty)
    as (result & w' & r & Hrun & Hcalls & _ & _ & Hcfg & _ & Hpre).
  exists result, w', r. split; [exact Hrun|]. split; [exact Hcalls|].
  split; [by rewrite Hcfg | exact Hpre].
Defined.

(** X3 at a sample input: the service refuses every request. *)
Lemma service_error_propagates_witness :
  let run :=
    get_structured_data (failing_service quota_error) sample_loads sample_dumps
      "SOF" (world_with_key "secret") in
  fst run = Raises quota_error /\ length (llm_requests (calls (snd run))) = 1.
Proof.
  intros run.
  pose proof (proj1 (service_error_propagates (failing_service quota_error)
                       sample_loads sample_dumps "SOF" "secret"
                       (world_with_key "secret") quota_error
                       sample_key_found sample_key_nonempty) eq_refl) as H.
  unfold run. rewrite H. split; reflexivity.
Defined.

(** X6 at a sample input: one candidate only. *)
Lemma refine_too_few_candidates_witness :
  let run :=
    _refine_extraction (constant_service (structured_response blank_record))
      sample_loads sample_dumps "SOF" [JNull] (world_with_key "secret") in
  fst run = Raises (Exn IndexError "list index out of range") /\
  calls (snd run) = [ClientCreated (Some "secret")].
Proof.
  intros run. unfold run.
  rewrite (refine_too_few_candidates
             (constant_service (structured_response blank_record))
             sample_loads sample_dumps "SOF" "secret" [JNull]
             (world_with_key "secret") sample_key_found sample_key_nonempty)
    by (simpl; lia).
  split; reflexivity.
Defined.

(** X7 at a sample input: the response carries the blank record. *)
Lemma structured_part_decides_witness :
  fst (_run_extraction (constant_service (structured_response blank_record))
         sample_loads "SOF" 0 (world_with_key "secret"))
  = Returns (model_dump blank_record).
Proof.
  apply (proj1 (structured_part_decides
                  (constant_service (structured_response blank_record))
                  sample_loads sample_dumps "SOF" "secret" 0 JNull JNull
                  (world_with_key "secret") (structured_response blank_record)
                  _ sample_key_found sample_key_nonempty
                  (or_introl (conj eq_refl eq_refl)))).
  reflexivity.
Defined.




(** X9 at a sample input: the fallback decodes the raw text to a list. *)
Lemma non_dict_result_is_rejected_witness :
  exists cause,
    exn_class cause = TypeError /\
    fst (process_file (constant_service (invalid_response "[]"))
           sample_loads sample_dumps sample_extract_text no_open_error no_directories
           sample_upload [] (world_with_key "secret"))
    = Raises (http_500 sample_upload cause).
Proof.
  set (w := world_with_key "secret").
  set (saved := set_fs (<["uploads/sof.txt" := body sample_upload]> (fs w)) w).
  set (run := get_structured_data (constant_service (invalid_response "[]"))
                sample_loads sample_dumps (body sample_upload) saved).
  apply (non_dict_result_is_rejected
           (constant_service (invalid_response "[]"))
           sample_loads sample_dumps sample_extract_text no_open_error no_directories
           sample_upload [] w (body sample_upload) (JArray []) (snd run)).
  - reflexivity.
  - by apply sample_stream_open.
  - vm_compute. reflexivity.
  - vm_compute. reflexivity.
  - intros d. discriminate.
Defined.

(** Two uploads and a service that answers every request with the blank
    record: the loop returns. *)
Lemma two_uploads_return :
  process_files (constant_service (structured_response blank_record))
    sample_loads sample_dumps sample_extract_text no_open_error no_directories
    [sample_upload; second_upload] [] (world_with_key "secret")
  = (Returns
       (match
           fst (process_files
                  (constant_service (structured_response blank_record))
                  sample_loads sample_dumps sample_extract_text no_open_error no_directories
                  [sample_upload; second_upload] [] (world_with_key "secret"))
         with
         | Returns l => l
         | Raises _ => []
         end),
     snd (process_files (constant_service (structured_response blank_record))
            sample_loads sample_dumps sample_extract_text no_open_error no_directories
            [sample_upload; second_upload] [] (world_with_key "secret"))).
Proof. vm_compute. reflexivity. Qed.

(** X10 at a sample input. *)
Lemma results_tagged_in_order_witness :
  exists l w' ds,
    process_files (constant_service (structured_response blank_record))
      sample_loads sample_dumps sample_extract_text no_open_error no_directories
      [sample_upload; second_upload] [] (world_with_key "secret")
    = (Returns l, w') /\
    l = map JObject ds /\
    Forall2 (fun file d => dict_get "fileName" d = Some (JStr (filename file)))
      [sample_upload; second_upload] ds.
Proof.
  destruct (results_tagged_in_order
              (constant_service (structured_response blank_record))
              sample_loads sample_dumps sample_extract_text no_open_error no_directories
              [sample_upload; second_upload] [] (world_with_key "secret")
              _ _ two_uploads_return) as (ds & Hl & Hds).
  eexists _, _, ds. split; [exact two_uploads_return|].
  split; [exact Hl | exact Hds].
Defined.

(** X11 at a sample input. *)
Lemma three_requests_per_upload_witness :
  length (llm_requests
            (calls (snd (process_files
                           (constant_service (structured_response blank_record))
                           sample_loads sample_dumps sample_extract_text
                           no_open_error no_directories [sample_upload; second_upload] []
                           (world_with_key "secret")))))
  = 6.
Proof.
  exact (three_requests_per_upload
           (constant_service (structured_response blank_record))
           sample_loads sample_dumps sample_extract_text no_open_error no_directories
           [sample_upload; second_upload] [] (world_with_key "secret")
           _ _ two_uploads_return).
Defined.

(** A request with one upload returns. *)
Lemma one_upload_request_returns :
  process_uploaded_files (constant_service (structured_response blank_record))
    sample_loads sample_dumps sample_extract_text no_open_error no_directories
    [sample_upload] (world_with_key "secret")
  = (Returns
       (match
           fst (process_uploaded_files
                  (constant_service (structured_response blank_record))
                  sample_loads sample_dumps sample_extract_text no_open_error no_directories
                  [sample_upload] (world_with_key "secret"))
         with
         | Returns j => j
         | Raises _ => JNull
         end),
     snd (process_uploaded_files
            (constant_service (structured_response blank_record))
            sample_loads sample_dumps sample_extract_text no_open_error no_directories
            [sample_upload] (world_with_key "secret"))).
Proof. vm_compute. reflexivity. Qed.

(** X15 at a sample input: one upload, then the background tasks. *)
Lemma results_wiped_after_response_witness :
  exists w2,
    run_background_tasks no_open_error
      (snd (process_uploaded_files
              (constant_service (structured_response blank_record))
              sample_loads sample_dumps sample_extract_text no_open_error no_directories
              [sample_upload] (world_with_key "secret")))
    = (Returns (), w2) /\
    fs w2 !! "output.json" = Some "[]" /\ background_tasks w2 = [].
Proof.
  exact (results_wiped_after_response
           (constant_service (structured_response blank_record))
           sample_loads sample_dumps sample_extract_text no_open_error no_directories
           [sample_upload] (world_with_key "secret") _ _ eq_refl
           one_upload_request_returns).
Defined.

(** X16 at a sample input: the key is set to the empty string. *)
Lemma upload_without_key_witness :
  exists w',
    process_file (constant_service (structured_response blank_record))
      sample_loads sample_dumps sample_extract_text no_open_error no_directories
      sample_upload [] (world_with_key "")
    = (Raises (Exn (HTTPException 500)
                 "Error while processing sof.txt: Missing GOOGLE_API_KEY environment variable."),
       w') /\
    calls w' = [] /\ fs w' !! "uploads/sof.txt" = None.
Proof.
  apply (upload_without_key
           (constant_service (structured_response blank_record))
           sample_loads sample_dumps sample_extract_text no_open_error no_directories
           sample_upload [] (world_with_key "") (body sample_upload)).
  - vm_compute. reflexivity.
  - reflexivity.
  - by apply sample_stream_open.
  - vm_compute. reflexivity.
Defined.

(** X17 at a sample input: the parser fails. *)
Lemma early_failure_sends_nothing_witness :
  exists e w',
    process_file (constant_service (structured_response blank_record))
      sample_loads sample_dumps (failing_extract_text quota_error)
      no_open_error no_directories sample_upload [] (world_with_key "secret")
    = (Raises e, w') /\ calls w' = [].
Proof.
  apply (early_failure_sends_nothing
           (constant_service (structured_response blank_record))
           sample_loads sample_dumps (failing_extract_text quota_error)
           no_open_error no_directories sample_upload [] (world_with_key "secret")).
  right. right. by exists quota_error.
Defined.

(** The service answers three requests and then refuses: the first upload
    succeeds. *)
Lemma first_upload_returns :
  process_files
    (service_failing_after 3 (structured_response blank_record) quota_error)
    sample_loads sample_dumps sample_extract_text no_open_error no_directories
    [sample_upload] [] (world_with_key "secret")
  = (Returns
       (match
           fst (process_files
                  (service_failing_after 3 (structured_response blank_record)
                     quota_error)
                  sample_loads sample_dumps sample_extract_text no_open_error no_directories
                  [sample_upload] [] (world_with_key "secret"))
         with
         | Returns l => l
         | Raises _ => []
         end),
     snd (process_files
            (service_failing_after 3 (structured_response blank_record)
               quota_error)
            sample_loads sample_dumps sample_extract_text no_open_error no_directories
            [sample_upload] [] (world_with_key "secret"))).
Proof. vm_compute. reflexivity. Qed.

(** ... and the second upload fails at its first request. *)
Lemma second_upload_fails (l1 : list JSON) :
  let w1 :=
    snd (process_files
           (service_failing_after 3 (structured_response blank_record)
              quota_error)
           sample_loads sample_dumps sample_extract_text no_open_error no_directories
           [sample_upload] [] (world_with_key "secret")) in
  process_file
    (service_failing_after 3 (structured_response blank_record) quota_error)
    sample_loads sample_dumps sample_extract_text no_open_error no_directories
    second_upload l1 w1
  = (Raises (http_500 second_upload quota_error),
     snd (process_file
            (service_failing_after 3 (structured_response blank_record)
               quota_error)
            sample_loads sample_dumps sample_extract_text no_open_error no_directories
            second_upload l1 w1)).
Proof. vm_compute. reflexivity. Qed.

(** X18 at a sample input: three uploads, of which the second fails. *)
Lemma first_failure_ends_request_witness :
  exists w2,
    process_uploaded_files
      (service_failing_after 3 (structured_response blank_record) quota_error)
      sample_loads sample_dumps sample_extract_text no_open_error no_directories
      ([sample_upload] ++ second_upload :: [sample_upload])
      (world_with_key "secret")
    = (Raises (http_500 second_upload quota_error), w2) /\
    closed_streams w2
    = {[stream second_upload]}
      ∪ (list_to_set (stream <$> [sample_upload])
         ∪ closed_streams (world_with_key "secret")).
Proof.
  eexists.
  exact (first_failure_ends_request
           (service_failing_after 3 (structured_response blank_record)
              quota_error)
           sample_loads sample_dumps sample_extract_text no_open_error no_directories
           [sample_upload] second_upload [sample_upload]
           (world_with_key "secret") _ _ _ _
           first_upload_returns (second_upload_fails _)).
Defined.

(** X19 at a sample input. *)
Lemma upload_structured_path_witness :
  exists d w',
    process_file (constant_service (structured_response blank_record))
      sample_loads sample_dumps sample_extract_text no_open_error no_directories
      sample_upload [] (world_with_key "secret")
    = (Returns [JObject d], w') /\
    map fst d
    = ["document_details"; "events"; "laytime_notes"; "approvals"; "fileName"] /\
    length (llm_requests (calls w')) = 3 /\
    fs w' !! "uploads/sof.txt" = None.
Proof.
  destruct (upload_structured_path
              (constant_service (structured_response blank_record))
              sample_loads sample_dumps sample_extract_text no_open_error no_directories
              sample_upload [] (world_with_key "secret") "secret"
              (body sample_upload) blank_record
              sample_key_found sample_key_nonempty eq_refl
              (sample_stream_open (world_with_key "secret") eq_refl))
    as (d & w' & Hrun & _ & _ & Hkeys & Hreq & Hfs).
  - vm_compute. reflexivity.
  - intros history r. reflexivity.
  - exists d, w'. repeat split; assumption.
Defined.
